(** * Metafield-definition CSV importer: the two route actions

    A shallow embedding of the server-side [action] of the two route files

    - [app/routes/app._index.tsx]  (module [AppIndex]), and
    - [unnamed/part_000]           (module [Part000]),

    together with the fragment of JavaScript they rely on (module [JS]).

    Conventions of the embedding:

    - a JavaScript string is the list of its UTF-16 code units ([list N]);
    - a CSV row (an object whose keys are the column names) is a finite map
      from strings to strings;
    - the admin API is a function from the requests already sent and the
      current request to a completion: either the parsed JSON body or a
      thrown value; the world threaded through the action is the list of
      mutation payloads sent so far;
    - a thrown value is an object (never [null] or [undefined]), kept as
      the text its [message] property prints;
    - [parse] (package csv-parse) is a parameter of the action;
    - [authenticate.admin(request)] has succeeded and [formData.get("file")]
      is a file or [null], as its type annotation says. *)

From Stdlib Require Import NArith Ascii String List Lia.
From Stdlib.Strings Require Import Byte.
From stdpp Require Import base option list gmap.

Set Warnings "-register-all".

Local Open Scope N_scope.
Local Open Scope list_scope.

(** ** JavaScript fragment *)

Module JS.

Abbreviation jsstring := (list N).

(** An ASCII literal as code units. *)
Definition str (s : string) : jsstring :=
  (λ a, N_of_ascii a) <$> list_ascii_of_string s.

Definition dquote : N := 34.
Definition backslash : N := 92.
Definition LF : N := 10.
Definition SP : N := 32.

(** Non-ASCII characters of the log lines. *)
Definition cross_mark : jsstring := [0x274C].
Definition check_mark : jsstring := [0x2705].
Definition warning_sign : jsstring := [0x26A0; 0xFE0F].
Definition right_arrow : jsstring := [0x2192].
Definition em_dash : jsstring := [0x2014].

(** WhiteSpace and LineTerminator code points, the ones [trim] strips. *)
Definition is_white_space (c : N) : bool :=
  (c =? 0x9) || (c =? 0xA) || (c =? 0xB) || (c =? 0xC) || (c =? 0xD)
  || (c =? 0x20) || (c =? 0xA0) || (c =? 0x1680)
  || ((0x2000 <=? c) && (c <=? 0x200A))
  || (c =? 0x2028) || (c =? 0x2029) || (c =? 0x202F) || (c =? 0x205F)
  || (c =? 0x3000) || (c =? 0xFEFF).

Fixpoint trimStart (s : jsstring) : jsstring :=
  match s with
  | c :: s' => if is_white_space c then trimStart s' else s
  | [] => []
  end.

Definition trimEnd (s : jsstring) : jsstring :=
  reverse (trimStart (reverse s)).

(** [String.prototype.trim] *)
Definition trim (s : jsstring) : jsstring := trimEnd (trimStart s).

(** [s.replace(/c/g, by)] for a one-character pattern [c] and a replacement
    without [$]. *)
Definition replace_all (c : N) (by_ : jsstring) (s : jsstring) : jsstring :=
  flat_map (λ x, if x =? c then by_ else [x]) s.

(** A JSON number is seen by the action only through ToString and
    ToBoolean; it is represented by these two observations. *)
Record number := { num_text : jsstring; num_nonzero : bool }.

(** Values: what [resp.json()] can return, plus [undefined]. *)
Inductive value :=
| Undefined
| Null
| Bool (b : bool)
| Num (n : number)
| Str (s : jsstring)
| Arr (items : list value)
| Obj (fields : gmap jsstring value).

Fixpoint join_strings (sep : jsstring) (l : list jsstring) : jsstring :=
  match l with
  | [] => []
  | [s] => s
  | s :: rest => s ++ sep ++ join_strings sep rest
  end.

(** ToString *)
Fixpoint to_string (v : value) : jsstring :=
  match v with
  | Undefined => str "undefined"
  | Null => str "null"
  | Bool true => str "true"
  | Bool false => str "false"
  | Num n => num_text n
  | Str s => s
  | Arr items =>
      join_strings (str ",")
        ((fix each (l : list value) : list jsstring :=
            match l with
            | [] => []
            | x :: r =>
                match x with
                | Undefined | Null => []
                | _ => to_string x
                end :: each r
            end) items)
  | Obj _ => str "[object Object]"
  end.

(** [Array.prototype.join]: [undefined] and [null] elements print as the
    empty string. *)
Definition join_item (x : value) : jsstring :=
  match x with
  | Undefined | Null => []
  | _ => to_string x
  end.

Definition join (sep : jsstring) (items : list value) : jsstring :=
  join_strings sep (join_item <$> items).

(** ToBoolean *)
Definition truthy (v : value) : bool :=
  match v with
  | Undefined | Null => false
  | Bool b => b
  | Num n => num_nonzero n
  | Str s => negb (bool_decide (s = []))
  | Arr _ | Obj _ => true
  end.

Definition nullish (v : value) : bool :=
  match v with
  | Undefined | Null => true
  | _ => false
  end.

(** Thrown values.  A [TypeError] is raised by the engine itself; every
    other thrown value is kept as the text that [err.message] prints in a
    template literal. *)
Inductive TypeErrorKind :=
| CannotRead (base : value) (prop : jsstring)
| NotAFunction (callee : jsstring).

Inductive Thrown :=
| TypeError (k : TypeErrorKind)
| Failure (message : jsstring).

(** The message text of the engine's TypeErrors. *)
Class Engine := type_error_message : TypeErrorKind → jsstring.

Definition message `{Engine} (err : Thrown) : jsstring :=
  match err with
  | TypeError k => type_error_message k
  | Failure m => m
  end.

Inductive Completion (A : Type) :=
| Normal (a : A)
| Throw (err : Thrown).
Arguments Normal {A} a.
Arguments Throw {A} err.

(** Property read [v.p], for the names the actions read ([data],
    [metafieldDefinitionCreate], [createdDefinition], [userErrors],
    [message]): none of them is defined on the prototypes of arrays,
    strings, numbers or booleans. *)
Definition get (v : value) (p : jsstring) : Completion value :=
  match v with
  | Undefined | Null => Throw (TypeError (CannotRead v p))
  | Obj fields => Normal (default Undefined (fields !! p))
  | _ => Normal Undefined
  end.

(** ToBoolean of [v?.length]. *)
Definition has_length (v : value) : bool :=
  match v with
  | Undefined | Null => false
  | Arr items => negb (bool_decide (items = []))
  | Str s => negb (bool_decide (s = []))
  | Obj fields => truthy (default Undefined (fields !! str "length"))
  | _ => false
  end.

(** [errors.map((e) => e.message)] *)
Fixpoint map_get (p : jsstring) (items : list value) : Completion (list value) :=
  match items with
  | [] => Normal []
  | e :: rest =>
      match get e p with
      | Throw err => Throw err
      | Normal x =>
          match map_get p rest with
          | Throw err => Throw err
          | Normal xs => Normal (x :: xs)
          end
      end
  end.

Definition map_message (errors : value) : Completion (list value) :=
  match errors with
  | Arr items => map_get (str "message") items
  | Undefined | Null => Throw (TypeError (CannotRead errors (str "map")))
  | _ => Throw (TypeError (NotAFunction (str "errors.map")))
  end.

(** [!x] and [x || d] for [x : string | undefined]. *)
Definition not_ (x : option jsstring) : bool :=
  match x with
  | Some (_ :: _) => false
  | _ => true
  end.

Definition or_else (x : option jsstring) (d : jsstring) : jsstring :=
  match x with
  | Some (c :: s) => c :: s
  | _ => d
  end.

(** *** Effects: requests sent and exceptions *)

(** The world is the list of queries passed to [admin.graphql] so far. *)
Abbreviation World := (list jsstring).

Definition M (A : Type) : Type := World → Completion A * World.

Definition ret {A} (a : A) : M A := λ w, (Normal a, w).

Definition lift {A} (c : Completion A) : M A := λ w, (c, w).

Definition bind {A B} (m : M A) (k : A → M B) : M B :=
  λ w, match m w with
       | (Normal a, w') => k a w'
       | (Throw err, w') => (Throw err, w')
       end.

Definition try_catch {A} (m : M A) (handler : Thrown → M A) : M A :=
  λ w, match m w with
       | (Normal a, w') => (Normal a, w')
       | (Throw err, w') => handler err w'
       end.

Notation "'let!' x ':=' m 'in' k" := (bind m (λ x, k))
  (at level 10, x name, m at level 100, k at level 200).

(** [await (await admin.graphql(query)).json()]: the admin API answers from
    the requests it has already received and the present one; the request
    is recorded whether the exchange succeeds or throws. *)
Abbreviation Admin := (World → jsstring → Completion value).

Definition graphql_json (admin : Admin) (query : jsstring) : M value :=
  λ w, (admin w query, w ++ [query]).

(** CSV rows as returned by [parse(buffer, { columns: true, ... })]. *)
Abbreviation Row := (gmap jsstring jsstring).
Abbreviation Buffer := (list byte).

Definition Object_keys (o : Row) : list jsstring := (map_to_list o).*1.

(** [for (const row of rows) { ... }] with the log threaded through. *)
Fixpoint for_of (body : Row → list jsstring → M (list jsstring))
    (rows : list Row) (finalLog : list jsstring) : M (list jsstring) :=
  match rows with
  | [] => ret finalLog
  | row :: rest =>
      let! finalLog' := body row finalLog in
      for_of body rest finalLog'
  end.

(** The lines a loop appends and the world it leaves, for a body that
    appends [line_of row w] and leaves [next row w]. *)
Fixpoint lines (line_of : Row → World → jsstring) (next : Row → World → World)
    (rows : list Row) (w : World) : list jsstring :=
  match rows with
  | [] => []
  | row :: rest => line_of row w :: lines line_of next rest (next row w)
  end.

Fixpoint world_after (next : Row → World → World)
    (rows : list Row) (w : World) : World :=
  match rows with
  | [] => w
  | row :: rest => world_after next rest (next row w)
  end.

(** A column that is missing, empty or made of white space only. *)
Definition blank (row : Row) (column : jsstring) : Prop :=
  match row !! column with
  | None => True
  | Some v => Forall (λ c, is_white_space c = true) v
  end.

(** Reading a quoted string literal from just after its opening quote:
    the contents up to the first unescaped double quote, with an escaped
    backslash and an escaped double quote decoded, and the text that
    follows the closing quote. *)
Fixpoint read_literal (s : jsstring) : option (jsstring * jsstring) :=
  match s with
  | [] => None
  | c :: s' =>
      if c =? dquote then Some ([], s')
      else if c =? backslash then
        match s' with
        | d :: s'' =>
            if (d =? dquote) || (d =? backslash) then
              match read_literal s'' with
              | Some (v, rest) => Some (d :: v, rest)
              | None => None
              end
            else None
        | [] => None
        end
      else
        match read_literal s' with
        | Some (v, rest) => Some (c :: v, rest)
        | None => None
        end
  end.

(** [v?.p] without the throw: what optional chaining reads. *)
Definition get_opt (v : value) (p : jsstring) : value :=
  match v with
  | Obj fields => default Undefined (fields !! p)
  | _ => Undefined
  end.

(** The parsed JSON has no [data], or no [data.metafieldDefinitionCreate]. *)
Definition lacks_operation (json : value) : bool :=
  nullish (get_opt (get_opt json (str "data")) (str "metafieldDefinitionCreate")).

(** What the action returns to the page. *)
Record ActionData := { status : option jsstring; log : list jsstring }.

End JS.

(** ** Text shared by the two route files *)

Module Text.
Import JS.

Definition no_file_line : jsstring := cross_mark ++ str " No file uploaded".
Definition empty_line : jsstring := cross_mark ++ str " CSV file is empty".
Definition invalid_line : jsstring := cross_mark ++ str " Invalid CSV format.".

Definition skip_line : jsstring :=
  warning_sign ++ str " Skipped row " ++ em_dash ++ str " missing name/key/type".

Definition created_line (name key : jsstring) : jsstring :=
  check_mark ++ str " Created metafield: " ++ name ++ str " (" ++ key ++ str ")".

Definition user_errors_line (name joined : jsstring) : jsstring :=
  warning_sign ++ str " " ++ name ++ str " " ++ right_arrow ++ str " " ++ joined.

Definition unknown_line (name : jsstring) : jsstring :=
  warning_sign ++ str " Unknown response for " ++ name.

Definition failed_line (name msg : jsstring) : jsstring :=
  cross_mark ++ str " Failed for " ++ name ++ str " " ++ right_arrow ++ str " " ++ msg.

(** One line of the template literal: a line feed, the indentation, the
    text. *)
Definition ln (indent : nat) (text : jsstring) : jsstring :=
  LF :: replicate indent SP ++ text.

Definition quoted (s : jsstring) : jsstring := dquote :: s ++ [dquote].

(** The template literal of the mutation with its four holes. *)
Definition mutation_template (name key type description : jsstring) : jsstring :=
  ln 6 (str "mutation {") ++
  ln 8 (str "metafieldDefinitionCreate(") ++
  ln 10 (str "definition: {") ++
  ln 12 (str "name: " ++ quoted name) ++
  ln 12 (str "namespace: " ++ quoted (str "custom")) ++
  ln 12 (str "key: " ++ quoted key) ++
  ln 12 (str "type: " ++ quoted type) ++
  ln 12 (str "description: " ++ quoted description) ++
  ln 12 (str "ownerType: PRODUCT") ++
  ln 10 (str "}") ++
  ln 8 (str ") {") ++
  ln 10 (str "createdDefinition { id name key }") ++
  ln 10 (str "userErrors { message }") ++
  ln 8 (str "}") ++
  ln 6 (str "}") ++
  ln 4 [].

(** The fixed text of the template around its four holes. *)
Definition seg_name : jsstring :=
  ln 6 (str "mutation {") ++
  ln 8 (str "metafieldDefinitionCreate(") ++
  ln 10 (str "definition: {") ++
  ln 12 (str "name: ").

Definition seg_key : jsstring :=
  ln 12 (str "namespace: " ++ quoted (str "custom")) ++ ln 12 (str "key: ").

Definition seg_type : jsstring := ln 12 (str "type: ").

Definition seg_description : jsstring := ln 12 (str "description: ").

Definition seg_end : jsstring :=
  ln 12 (str "ownerType: PRODUCT") ++
  ln 10 (str "}") ++
  ln 8 (str ") {") ++
  ln 10 (str "createdDefinition { id name key }") ++
  ln 10 (str "userErrors { message }") ++
  ln 8 (str "}") ++
  ln 6 (str "}") ++
  ln 4 [].

(** The string literal that opens right after [prefix] in [payload]. *)
Definition literal_after (prefix payload : jsstring)
    : option (jsstring * jsstring) :=
  read_literal (drop (length prefix + 1) payload).

Definition requiredHeaders : list jsstring := [str "Name"; str "Key"; str "Type"].

(** [requiredHeaders.filter((h) => !headers.includes(h))] with
    [headers = Object.keys(rows[0] || {})]. *)
Definition missingHeaders (rows : list Row) : list jsstring :=
  let headers := Object_keys (default ∅ (head rows)) in
  filter (λ h, h ∉ headers) requiredHeaders.

(** The fixed logs of the header check, one per route file. *)
Definition invalid_log_part000 : list jsstring :=
  [invalid_line; str "Required columns:"; str "Name, Key, Type, Description"].

Definition invalid_log_index : list jsstring :=
  [invalid_line;
   str "This app only accepts a Metafield Definitions CSV.";
   str "Required columns:";
   str "Name, Key, Type, Description";
   []; []; []].

(** Two rows that agree on the four columns the action reads. *)
Definition same_columns (row row' : Row) : Prop :=
  ∀ c, c ∈ [str "Name"; str "Key"; str "Type"; str "Description"] →
       row !! c = row' !! c.

(** A structural failure: no file, no data row, or a required column that
    the first row does not have. *)
Definition structural_failure (parse : Buffer → Completion (list Row))
    (file : option Buffer) : Prop :=
  match file with
  | None => True
  | Some buffer =>
      match parse buffer with
      | Normal rows =>
          rows = [] ∨ ∃ h, h ∈ requiredHeaders ∧ default ∅ (head rows) !! h = None
      | Throw _ => False
      end
  end.

End Text.

(** ** unnamed/part_000 *)

Module Part000.
Import JS Text.

Section Action.
Context `{Engine}.
Variable parse : Buffer → Completion (list Row).
Variable admin : Admin.

Definition esc (v : jsstring) : jsstring :=
  replace_all dquote [backslash; dquote]
    (replace_all backslash [backslash; backslash] v).

(** [json.data?.metafieldDefinitionCreate?.<field>] *)
Definition read_field (json : value) (field : jsstring) : Completion value :=
  match get json (str "data") with
  | Throw err => Throw err
  | Normal data =>
      if nullish data then Normal Undefined
      else
        match get data (str "metafieldDefinitionCreate") with
        | Throw err => Throw err
        | Normal op => if nullish op then Normal Undefined else get op field
        end
  end.

(** The body of the [for] loop. *)
Definition row_body (row : Row) (finalLog : list jsstring) : M (list jsstring) :=
  let name := trim <$> row !! str "Name" in
  let key := trim <$> row !! str "Key" in
  let type := trim <$> row !! str "Type" in
  let description := or_else (trim <$> row !! str "Description") [] in
  if not_ name || not_ key || not_ type then
    ret (finalLog ++ [skip_line])
  else
    let name := default [] name in
    let key := default [] key in
    let type := default [] type in
    let mutation :=
      mutation_template (esc name) (esc key) (esc type) (esc description) in
    try_catch
      (let! json := graphql_json admin mutation in
       let! created := lift (read_field json (str "createdDefinition")) in
       let! errors := lift (read_field json (str "userErrors")) in
       if truthy created then
         ret (finalLog ++ [created_line name key])
       else if has_length errors then
         let! messages := lift (map_message errors) in
         ret (finalLog ++ [user_errors_line name (join (str ", ") messages)])
       else
         ret (finalLog ++ [unknown_line name]))
      (λ err, ret (finalLog ++ [failed_line name (message err)])).

(** The line the [try]/[catch] statement appends, by the way the exchange
    completed. *)
Definition reply_line (name key : jsstring) (reply : Completion value) : jsstring :=
  match reply with
  | Throw err => failed_line name (message err)
  | Normal json =>
      match read_field json (str "createdDefinition") with
      | Throw err => failed_line name (message err)
      | Normal created =>
          match read_field json (str "userErrors") with
          | Throw err => failed_line name (message err)
          | Normal errors =>
              if truthy created then created_line name key
              else if has_length errors then
                match map_message errors with
                | Throw err => failed_line name (message err)
                | Normal messages =>
                    user_errors_line name (join (str ", ") messages)
                end
              else unknown_line name
          end
      end
  end.

(** The line the loop body appends for [row] in world [w], and the world it
    leaves. *)
Definition row_line (row : Row) (w : World) : jsstring :=
  match row_body row [] w with
  | (Normal finalLog, _) => default [] (last finalLog)
  | (Throw _, _) => []
  end.

Definition row_world (row : Row) (w : World) : World := (row_body row [] w).2.

Definition action (file : option Buffer) : M ActionData :=
  match file with
  | None =>
      ret {| status := Some (str "error"); log := [no_file_line] |}
  | Some buffer =>
      let! rows := lift (parse buffer) in
      if (length rows =? 0)%nat then
        ret {| status := Some (str "error"); log := [empty_line] |}
      else if (0 <? length (missingHeaders rows))%nat then
        ret {| status := Some (str "error"); log := invalid_log_part000 |}
      else
        let! finalLog := for_of row_body rows [] in
        ret {| status := Some (str "success"); log := finalLog |}
  end.

End Action.
End Part000.

(** ** app/routes/app._index.tsx *)

Module AppIndex.
Import JS Text.

Section Action.
Context `{Engine}.
Variable parse : Buffer → Completion (list Row).
Variable admin : Admin.

(** [json.data.metafieldDefinitionCreate.<field>] *)
Definition read_field (json : value) (field : jsstring) : Completion value :=
  match get json (str "data") with
  | Throw err => Throw err
  | Normal data =>
      match get data (str "metafieldDefinitionCreate") with
      | Throw err => Throw err
      | Normal op => get op field
      end
  end.

(** The body of the [for] loop. *)
Definition row_body (row : Row) (finalLog : list jsstring) : M (list jsstring) :=
  let name := trim <$> row !! str "Name" in
  let key := trim <$> row !! str "Key" in
  let type := trim <$> row !! str "Type" in
  let description := or_else (trim <$> row !! str "Description") [] in
  if not_ name || not_ key || not_ type then
    ret (finalLog ++ [skip_line])
  else
    let name := default [] name in
    let key := default [] key in
    let type := default [] type in
    let mutation := mutation_template name key type description in
    try_catch
      (let! json := graphql_json admin mutation in
       let! created := lift (read_field json (str "createdDefinition")) in
       let! errors := lift (read_field json (str "userErrors")) in
       if truthy created then
         ret (finalLog ++ [created_line name key])
       else if has_length errors then
         let! messages := lift (map_message errors) in
         ret (finalLog ++ [user_errors_line name (join (str ", ") messages)])
       else
         ret (finalLog ++ [unknown_line name]))
      (λ err, ret (finalLog ++ [failed_line name (message err)])).

(** The line the [try]/[catch] statement appends, by the way the exchange
    completed. *)
Definition reply_line (name key : jsstring) (reply : Completion value) : jsstring :=
  match reply with
  | Throw err => failed_line name (message err)
  | Normal json =>
      match read_field json (str "createdDefinition") with
      | Throw err => failed_line name (message err)
      | Normal created =>
          match read_field json (str "userErrors") with
          | Throw err => failed_line name (message err)
          | Normal errors =>
              if truthy created then created_line name key
              else if has_length errors then
                match map_message errors with
                | Throw err => failed_line name (message err)
                | Normal messages =>
                    user_errors_line name (join (str ", ") messages)
                end
              else unknown_line name
          end
      end
  end.

(** The line the loop body appends for [row] in world [w], and the world it
    leaves. *)
Definition row_line (row : Row) (w : World) : jsstring :=
  match row_body row [] w with
  | (Normal finalLog, _) => default [] (last finalLog)
  | (Throw _, _) => []
  end.

Definition row_world (row : Row) (w : World) : World := (row_body row [] w).2.

Definition action (file : option Buffer) : M ActionData :=
  match file with
  | None =>
      ret {| status := None; log := [no_file_line] |}
  | Some buffer =>
      let! rows := lift (parse buffer) in
      if (0 <? length (missingHeaders rows))%nat then
        ret {| status := None; log := invalid_log_index |}
      else
        let! finalLog := for_of row_body rows [] in
        ret {| status := None; log := finalLog |}
  end.

End Action.
End AppIndex.

(** ** Sample inputs *)

Module Sample.
Import JS Text.

(** The TypeError texts of V8, the engine of Node.js. *)
Definition node_v8 : Engine := λ k,
  match k with
  | CannotRead base prop =>
      str "Cannot read properties of " ++ to_string base
      ++ str " (reading '" ++ prop ++ str "')"
  | NotAFunction callee => callee ++ str " is not a function"
  end.

Definition color_row : Row :=
  list_to_map [(str "Name", str "Color"); (str "Key", str "color");
               (str "Type", str "single_line_text_field");
               (str "Description", [])].

(** Name is the letter a, a double quote, the letter b. *)
Definition quote_row : Row :=
  list_to_map [(str "Name", str "a" ++ [dquote] ++ str "b");
               (str "Key", str "k"); (str "Type", str "t")].

(** A row whose Name closes its literal, adds a namespace field and opens
    a block string as the value of a key field, and whose Type closes that
    block string and opens the literal of a type field. *)
Definition namespace_row : Row :=
  list_to_map
    [(str "Name",
      str "x" ++ [dquote] ++ str " namespace: " ++ quoted (str "evil")
      ++ str " key: " ++ [dquote; dquote]);
     (str "Key", str "k");
     (str "Type", [dquote; dquote] ++ str " type: " ++ [dquote] ++ str "t")].

Definition no_key_row : Row :=
  list_to_map [(str "Name", str "Color"); (str "Type", str "t")].

Definition blank_key_row : Row :=
  list_to_map [(str "Name", str "Color"); (str "Key", str "  ");
               (str "Type", str "t")].

Definition spaces_description_row : Row :=
  list_to_map [(str "Name", str "Color"); (str "Key", str "color");
               (str "Type", str "single_line_text_field");
               (str "Description", str "   ")].

Definition no_description_row : Row :=
  list_to_map [(str "Name", str "Color"); (str "Key", str "color");
               (str "Type", str "single_line_text_field")].

Definition response (result : gmap jsstring value) : value :=
  Obj {[ str "data" := Obj {[ str "metafieldDefinitionCreate" := Obj result ]} ]}.

Definition created_result : gmap jsstring value :=
  list_to_map
    [(str "createdDefinition",
      Obj (list_to_map [(str "id", Str (str "gid://shopify/MetafieldDefinition/1"));
                        (str "name", Str (str "Color"));
                        (str "key", Str (str "color"))]));
     (str "userErrors", Arr [])].

Definition created_response : value := response created_result.

Definition key_exists_errors : list value :=
  [Obj {[ str "message" := Str (str "Key already exists") ]}].

Definition key_exists_result : gmap jsstring value :=
  list_to_map
    [(str "createdDefinition", Null);
     (str "userErrors", Arr key_exists_errors)].

Definition key_exists_response : value := response key_exists_result.

Definition replies (json : value) : Admin := λ _ _, Normal json.

Definition parses (rows : list Row) : Buffer → Completion (list Row) :=
  λ _, Normal rows.

Definition fails (err : Thrown) : Buffer → Completion (list Row) :=
  λ _, Throw err.

End Sample.

(** ** The requests of a run *)

Module Requests.
Import JS Text.

(** The trimmed Name, Key, Type and Description of a row that passes the
    guard [!name || !key || !type]; [None] for a row that is skipped. *)
Definition processed (row : Row)
    : option (jsstring * jsstring * jsstring * jsstring) :=
  let name := trim <$> row !! str "Name" in
  let key := trim <$> row !! str "Key" in
  let type := trim <$> row !! str "Type" in
  let description := or_else (trim <$> row !! str "Description") [] in
  if not_ name || not_ key || not_ type then None
  else Some (default [] name, default [] key, default [] type, description).

(** The mutation each route file builds from these fields. *)
Definition payload_part000
    (fields : jsstring * jsstring * jsstring * jsstring) : jsstring :=
  let '(name, key, type, description) := fields in
  mutation_template (Part000.esc name) (Part000.esc key) (Part000.esc type)
    (Part000.esc description).

Definition payload_index
    (fields : jsstring * jsstring * jsstring * jsstring) : jsstring :=
  let '(name, key, type, description) := fields in
  mutation_template name key type description.

(** A character that [esc] rewrites, and a string without any. *)
Definition special (c : N) : bool := (c =? dquote) || (c =? backslash).

Definition plain (v : jsstring) : Prop := Forall (λ c, special c = false) v.

(** A row whose four columns hold plain strings. *)
Definition plain_row (row : Row) : Prop :=
  ∀ c v, c ∈ [str "Name"; str "Key"; str "Type"; str "Description"] →
         row !! c = Some v → plain v.

End Requests.

(** ** The page component: the handlers of the form *)

Module Page.
Import JS.

(** [s.endsWith(t)] *)
Definition endsWith (s t : jsstring) : bool :=
  (length t <=? length s)%nat
  && bool_decide (drop (length s - length t) s = t).

(** [toLowerCase] on the letters A to Z. *)
Definition ascii_lower (c : N) : N :=
  if (65 <=? c) && (c <=? 90) then c + 32 else c.

Definition ascii (s : jsstring) : Prop := Forall (λ c, c < 128) s.

(** A name that ends with a dot and the letters c, s, v in either case. *)
Definition csv_name (s : jsstring) : Prop :=
  ∃ stem a b c,
    s = stem ++ [46; a; b; c]
    ∧ (a = 99 ∨ a = 67) ∧ (b = 115 ∨ b = 83) ∧ (c = 118 ∨ c = 86).

(** [fetcher.state] *)
Inductive FetcherState := idle | loading | submitting.

(** [e.target.files?.[0]?.name ?? ""], the files given by their names. *)
Definition first_name (files : option (list jsstring)) : jsstring :=
  match files with
  | Some (name :: _) => name
  | _ => []
  end.

End Page.

(** *** unnamed/part_000 *)

Module Part000Page.
Import JS Page.

Record State := { fileName : jsstring; error : jsstring }.

Definition initial : State := {| fileName := []; error := [] |}.

Section Handlers.
Variable toLowerCase : jsstring → jsstring.

(** [onSubmit]: whether [e.preventDefault()] is called, and the state the
    handler leaves. *)
Definition onSubmit (st : State) : bool * State :=
  if bool_decide (fileName st = []) then
    (true, {| fileName := fileName st;
              error := str "Please upload a CSV file." |})
  else if negb (endsWith (toLowerCase (fileName st)) (str ".csv")) then
    (true, {| fileName := fileName st;
              error := str "Only .csv files are allowed." |})
  else
    (false, {| fileName := fileName st; error := [] |}).

End Handlers.

(** [onChange] of the file input. *)
Definition onChange (files : option (list jsstring)) (st : State) : State :=
  {| fileName := first_name files; error := [] |}.

(** The effect that runs when [fetcher.state] or [fetcher.data] changes. *)
Definition afterFetch (state : FetcherState) (data : option ActionData)
    (st : State) : State :=
  match state, data with
  | idle, Some _ => {| fileName := []; error := [] |}
  | _, _ => st
  end.

End Part000Page.

(** *** app/routes/app._index.tsx *)

Module AppIndexPage.
Import JS Page.

Record State := { fileName : jsstring; clientError : jsstring }.

Section Handlers.
Variable toLowerCase : jsstring → jsstring.

Definition onSubmit (st : State) : bool * State :=
  if bool_decide (fileName st = []) then
    (true, {| fileName := fileName st;
              clientError := str "Please select a CSV file before uploading." |})
  else if negb (endsWith (toLowerCase (fileName st)) (str ".csv")) then
    (true, {| fileName := fileName st;
              clientError := str "Only .csv files are allowed." |})
  else
    (false, {| fileName := fileName st; clientError := [] |}).

End Handlers.

Definition onChange (files : option (list jsstring)) (st : State) : State :=
  {| fileName := first_name files; clientError := clientError st |}.

End AppIndexPage.

(** ** The line a response gives *)

Module Response.
Import JS Text.


End Response.

(** ** Reading the definition object of a request *)

Module Graph.
Import JS Text.

(** Ignored between tokens: space, tab, line terminators, comma. *)
Definition ignored (c : N) : bool :=
  (c =? SP) || (c =? LF) || (c =? 9) || (c =? 13) || (c =? 44).

Fixpoint skip_ignored (s : jsstring) : jsstring :=
  match s with
  | c :: s' => if ignored c then skip_ignored s' else s
  | [] => []
  end.

(** Letters, digits and the underscore. *)
Definition name_char (c : N) : bool :=
  ((65 <=? c) && (c <=? 90)) || ((97 <=? c) && (c <=? 122))
  || ((48 <=? c) && (c <=? 57)) || (c =? 95).

(** The longest run of name characters, and what follows it. *)
Fixpoint read_name (s : jsstring) : jsstring * jsstring :=
  match s with
  | c :: s' =>
      if name_char c then let (w, rest) := read_name s' in (c :: w, rest)
      else ([], s)
  | [] => ([], [])
  end.

(** A block string from just after its opening triple quote: the raw text
    up to the next triple quote. *)
Fixpoint read_block (s : jsstring) : option (jsstring * jsstring) :=
  match s with
  | [] => None
  | c :: s' =>
      match s' with
      | c2 :: c3 :: s3 =>
          if (c =? dquote) && (c2 =? dquote) && (c3 =? dquote) then
            Some ([], s3)
          else
            match read_block s' with
            | Some (raw, rest) => Some (c :: raw, rest)
            | None => None
            end
      | _ =>
          match read_block s' with
          | Some (raw, rest) => Some (c :: raw, rest)
          | None => None
          end
      end
  end.

Inductive field_value :=
| StringValue (v : jsstring)
| BlockString (raw : jsstring)
| Word (w : jsstring).

(** A value: a block string, a quoted string, or a bare name. *)
Definition read_value (s : jsstring) : option (field_value * jsstring) :=
  match s with
  | [] => None
  | q :: s' =>
      if q =? dquote then
        match s' with
        | q2 :: q3 :: s3 =>
            if (q2 =? dquote) && (q3 =? dquote) then
              match read_block s3 with
              | Some (raw, rest) => Some (BlockString raw, rest)
              | None => None
              end
            else
              match read_literal s' with
              | Some (v, rest) => Some (StringValue v, rest)
              | None => None
              end
        | _ =>
            match read_literal s' with
            | Some (v, rest) => Some (StringValue v, rest)
            | None => None
            end
        end
      else
        match read_name s with
        | ([], _) => None
        | (w, rest) => Some (Word w, rest)
        end
  end.

(** The fields [name: value] of an object, from just after its opening
    brace to its closing brace; one unit of fuel per field. *)
Fixpoint read_fields (fuel : nat) (s : jsstring)
    : option (list (jsstring * field_value)) :=
  match fuel with
  | O => None
  | S fuel' =>
      match skip_ignored s with
      | [] => None
      | c :: r =>
          if c =? 125 then Some []
          else
            match read_name (c :: r) with
            | ([], _) => None
            | (name, after) =>
                match skip_ignored after with
                | colon :: v =>
                    if colon =? 58 then
                      match read_value (skip_ignored v) with
                      | Some (value, rest) =>
                          match read_fields fuel' rest with
                          | Some fields => Some ((name, value) :: fields)
                          | None => None
                          end
                      | None => None
                      end
                    else None
                | [] => None
                end
            end
      end
  end.

(** The text of the template up to the opening brace of the definition
    object. *)
Definition seg_open : jsstring :=
  ln 6 (str "mutation {") ++
  ln 8 (str "metafieldDefinitionCreate(") ++
  ln 10 (str "definition: {").

(** One line of the definition object with a string value. *)
Definition field_line (w v : jsstring) : jsstring :=
  ln 12 (w ++ str ": " ++ quoted v).

(** The fields of the definition object of a request. *)
Definition definition_fields (payload : jsstring)
    : option (list (jsstring * field_value)) :=
  read_fields (length payload) (drop (length seg_open) payload).

End Graph.

(** * Properties *)

Import JS Text.

(** ** Strings *)

Lemma trimStart_white (v : jsstring) :
  Forall (λ c, is_white_space c = true) v → trimStart v = [].
Proof.
  induction 1 as [|c v Hc _ IH]; [reflexivity|].
  simpl. rewrite Hc. exact IH.
Qed.

Lemma trim_white (v : jsstring) :
  Forall (λ c, is_white_space c = true) v → trim v = [].
Proof.
  intros Hv. unfold trim, trimEnd. rewrite (trimStart_white v Hv). reflexivity.
Qed.

Lemma not_blank (row : Row) (column : jsstring) :
  blank row column → not_ (trim <$> row !! column) = true.
Proof.
  unfold blank. destruct (row !! column) as [v|]; simpl; [|reflexivity].
  intros Hv. rewrite (trim_white v Hv). reflexivity.
Qed.

Lemma or_else_blank (row : Row) (column : jsstring) :
  blank row column → or_else (trim <$> row !! column) [] = [].
Proof.
  unfold blank. destruct (row !! column) as [v|]; simpl; [|reflexivity].
  intros Hv. rewrite (trim_white v Hv). reflexivity.
Qed.

(** ** The loop *)

Section Loop.
Variable body : Row → list jsstring → M (list jsstring).
Variable line_of : Row → World → jsstring.
Variable next : Row → World → World.
Hypothesis body_appends : ∀ row finalLog w,
  body row finalLog w = (Normal (finalLog ++ [line_of row w]), next row w).

Lemma for_of_cons row rest finalLog w :
  for_of body (row :: rest) finalLog w
  = for_of body rest (finalLog ++ [line_of row w]) (next row w).
Proof. simpl. unfold bind. rewrite body_appends. reflexivity. Qed.

Lemma for_of_lines rows : ∀ finalLog w,
  for_of body rows finalLog w
  = (Normal (finalLog ++ lines line_of next rows w), world_after next rows w).
Proof.
  induction rows as [|row rest IH]; intros finalLog w.
  - simpl. unfold ret. rewrite app_nil_r. reflexivity.
  - rewrite for_of_cons, IH. simpl. rewrite <- app_assoc. reflexivity.
Qed.

Lemma length_lines rows : ∀ w, length (lines line_of next rows w) = length rows.
Proof. induction rows as [|row rest IH]; intros w; simpl; [|rewrite IH]; reflexivity. Qed.

Lemma lines_lookup rows : ∀ w (i : nat) row,
  rows !! i = Some row →
  lines line_of next rows w !! i
  = Some (line_of row (world_after next (take i rows) w)).
Proof.
  induction rows as [|r rest IH]; intros w i row Hi; [discriminate|].
  destruct i as [|i]; simpl in *.
  - congruence.
  - apply IH. exact Hi.
Qed.

End Loop.

(** ** The loop body appends one line *)

Ltac run_body :=
  unfold try_catch, bind, graphql_json, lift, ret; simpl;
  repeat match goal with
         | |- context [match ?c with Normal _ => _ | Throw _ => _ end] =>
             destruct c; simpl
         | |- context [if ?b then _ else _] => destruct b; simpl
         end.

Lemma Part000_row_body_appends `{Engine} (admin : Admin) row finalLog w :
  Part000.row_body admin row finalLog w
  = (Normal (finalLog ++ [Part000.row_line admin row w]),
     Part000.row_world admin row w).
Proof.
  unfold Part000.row_line, Part000.row_world, Part000.row_body.
  destruct (not_ _ || not_ _ || not_ _); [reflexivity|].
  run_body; reflexivity.
Qed.

Lemma AppIndex_row_body_appends `{Engine} (admin : Admin) row finalLog w :
  AppIndex.row_body admin row finalLog w
  = (Normal (finalLog ++ [AppIndex.row_line admin row w]),
     AppIndex.row_world admin row w).
Proof.
  unfold AppIndex.row_line, AppIndex.row_world, AppIndex.row_body.
  destruct (not_ _ || not_ _ || not_ _); [reflexivity|].
  run_body; reflexivity.
Qed.

(** ** The header check *)

Lemma elem_of_Object_keys (o : Row) (h : jsstring) :
  h ∈ Object_keys o ↔ is_Some (o !! h).
Proof.
  unfold Object_keys. rewrite list_elem_of_fmap. split.
  - intros [[k v] [-> Hkv]]. apply elem_of_map_to_list in Hkv. simpl. eauto.
  - intros [v Hv]. exists (h, v). split; [reflexivity|].
    apply elem_of_map_to_list. exact Hv.
Qed.

Lemma elem_of_missingHeaders (rows : list Row) (h : jsstring) :
  h ∈ missingHeaders rows
  ↔ h ∈ requiredHeaders ∧ default ∅ (head rows) !! h = None.
Proof.
  unfold missingHeaders. rewrite list_elem_of_filter, elem_of_Object_keys.
  rewrite <- eq_None_not_Some. tauto.
Qed.

Lemma missingHeaders_test_true (rows : list Row) (h : jsstring) :
  h ∈ requiredHeaders → default ∅ (head rows) !! h = None →
  (0 <? length (missingHeaders rows))%nat = true.
Proof.
  intros Hh Hnone.
  assert (Hin : h ∈ missingHeaders rows) by (apply elem_of_missingHeaders; auto).
  destruct (missingHeaders rows); [inversion Hin | reflexivity].
Qed.

Lemma missingHeaders_test_false (rows : list Row) :
  (0 <? length (missingHeaders rows))%nat = false ↔ missingHeaders rows = [].
Proof. destruct (missingHeaders rows); cbn; split; intros Heq; first [reflexivity | discriminate Heq]. Qed.

Lemma missingHeaders_empty : missingHeaders [] = requiredHeaders.
Proof. reflexivity. Qed.

Lemma missingHeaders_nil_inv (rows : list Row) :
  missingHeaders rows = [] → (length rows =? 0)%nat = false.
Proof.
  destruct rows; [|reflexivity]. rewrite missingHeaders_empty. discriminate.
Qed.

(** ** Claims *)

(** C2.  When no required header is missing, the action returns a log with
    exactly one entry per data row, and the i-th entry is the line the loop
    body appends for the i-th row (in the world left by the rows before
    it); this holds in both route files. *)
Theorem log_one_entry_per_row `{Engine} parse (admin : Admin) buffer rows w :
  parse buffer = Normal rows →
  missingHeaders rows = [] →
  (∃ finalLog w',
      Part000.action parse admin (Some buffer) w
      = (Normal {| status := Some (str "success"); log := finalLog |}, w')
      ∧ length finalLog = length rows
      ∧ ∀ (i : nat) row, rows !! i = Some row →
          finalLog !! i
          = Some (Part000.row_line admin row
                    (world_after (Part000.row_world admin) (take i rows) w)))
  ∧ (∃ finalLog w',
      AppIndex.action parse admin (Some buffer) w
      = (Normal {| status := None; log := finalLog |}, w')
      ∧ length finalLog = length rows
      ∧ ∀ (i : nat) row, rows !! i = Some row →
          finalLog !! i
          = Some (AppIndex.row_line admin row
                    (world_after (AppIndex.row_world admin) (take i rows) w))).
Proof.
  intros Hparse Hmissing. split.
  - eexists _, _. split; [|split].
    + unfold Part000.action, bind, lift. rewrite Hparse.
      rewrite (missingHeaders_nil_inv rows Hmissing), Hmissing. simpl.
      rewrite (for_of_lines _ _ _ (Part000_row_body_appends admin)).
      reflexivity.
    + apply length_lines.
    + intros i row Hi. simpl. apply lines_lookup. exact Hi.
  - eexists _, _. split; [|split].
    + unfold AppIndex.action, bind, lift. rewrite Hparse, Hmissing. simpl.
      rewrite (for_of_lines _ _ _ (AppIndex_row_body_appends admin)).
      reflexivity.
    + apply length_lines.
    + intros i row Hi. simpl. apply lines_lookup. exact Hi.
Qed.

(** C5.  A row whose Name, Key or Type is missing, empty or white space
    only gets exactly the skip line, sends no request (the world is
    unchanged), and the loop goes on with the rows that follow; this holds
    in both route files. *)
Theorem blank_row_is_skipped `{Engine} (admin : Admin) row rest finalLog w :
  blank row (str "Name") ∨ blank row (str "Key") ∨ blank row (str "Type") →
  (Part000.row_body admin row finalLog w = (Normal (finalLog ++ [skip_line]), w)
   ∧ for_of (Part000.row_body admin) (row :: rest) finalLog w
     = for_of (Part000.row_body admin) rest (finalLog ++ [skip_line]) w)
  ∧ (AppIndex.row_body admin row finalLog w = (Normal (finalLog ++ [skip_line]), w)
     ∧ for_of (AppIndex.row_body admin) (row :: rest) finalLog w
       = for_of (AppIndex.row_body admin) rest (finalLog ++ [skip_line]) w).
Proof.
  intros Hblank.
  assert (Hguard : not_ (trim <$> row !! str "Name")
                   || not_ (trim <$> row !! str "Key")
                   || not_ (trim <$> row !! str "Type") = true).
  { destruct Hblank as [Hb|[Hb|Hb]]; rewrite (not_blank _ _ Hb);
      rewrite ?orb_true_r; reflexivity. }
  assert (HP : Part000.row_body admin row finalLog w
               = (Normal (finalLog ++ [skip_line]), w)).
  { unfold Part000.row_body. rewrite Hguard. reflexivity. }
  assert (HA : AppIndex.row_body admin row finalLog w
               = (Normal (finalLog ++ [skip_line]), w)).
  { unfold AppIndex.row_body. rewrite Hguard. reflexivity. }
  repeat split; try assumption.
  - simpl. unfold bind. rewrite HP. reflexivity.
  - simpl. unfold bind. rewrite HA. reflexivity.
Qed.

(** C6.  When the first row lacks one of the columns Name, Key, Type
    (exact names), the action returns the fixed structural error log of its
    route file, sends no request and runs the loop body for no row. *)
Theorem missing_header_aborts `{Engine} parse (admin : Admin) buffer row rest h w :
  parse buffer = Normal (row :: rest) →
  h ∈ requiredHeaders →
  row !! h = None →
  Part000.action parse admin (Some buffer) w
  = (Normal {| status := Some (str "error"); log := invalid_log_part000 |}, w)
  ∧ AppIndex.action parse admin (Some buffer) w
    = (Normal {| status := None; log := invalid_log_index |}, w).
Proof.
  intros Hparse Hh Hnone.
  pose proof (missingHeaders_test_true (row :: rest) h Hh Hnone) as Htest.
  split.
  - unfold Part000.action, bind, lift. rewrite Hparse. simpl length.
    change (S (length rest) =? 0)%nat with false. cbv iota.
    rewrite Htest. reflexivity.
  - unfold AppIndex.action, bind, lift. rewrite Hparse, Htest. reflexivity.
Qed.

(** Columns other than Name, Key, Type and Description are ignored: two
    CSVs whose rows agree on these four columns get the same result and
    send the same requests. *)
Lemma same_columns_lookups (row row' : Row) :
  same_columns row row' →
  row !! str "Name" = row' !! str "Name"
  ∧ row !! str "Key" = row' !! str "Key"
  ∧ row !! str "Type" = row' !! str "Type"
  ∧ row !! str "Description" = row' !! str "Description".
Proof. intros Hsame. repeat split; apply Hsame; set_solver. Qed.

Lemma same_columns_missingHeaders (rows rows' : list Row) :
  Forall2 same_columns rows rows' → missingHeaders rows = missingHeaders rows'.
Proof.
  destruct 1 as [|row row' rest rest' Hsame _]; [reflexivity|].
  destruct (same_columns_lookups _ _ Hsame) as (Hn & Hk & Ht & _).
  unfold missingHeaders, requiredHeaders. simpl head. simpl default.
  rewrite !filter_cons, !filter_nil.
  repeat case_decide; try reflexivity; exfalso;
    repeat match goal with
           | Hx : context [Object_keys _] |- _ =>
               rewrite elem_of_Object_keys in Hx
           end; congruence.
Qed.

Lemma same_columns_for_of (body : Row → list jsstring → M (list jsstring))
    (rows rows' : list Row) :
  (∀ row row' finalLog w,
     same_columns row row' → body row finalLog w = body row' finalLog w) →
  Forall2 same_columns rows rows' →
  ∀ finalLog w, for_of body rows finalLog w = for_of body rows' finalLog w.
Proof.
  intros Hbody. induction 1 as [|row row' rest rest' Hsame _ IH];
    intros finalLog w; [reflexivity|].
  simpl. unfold bind. rewrite (Hbody row row' finalLog w Hsame).
  destruct (body row' finalLog w) as [[finalLog'|err] w']; [apply IH|reflexivity].
Qed.

(** X15.  Columns other than Name, Key, Type and Description are ignored:
    two CSVs whose rows agree, row by row, on these four columns get the
    same result and send the same requests, in both route files. *)
Theorem extra_columns_ignored `{Engine} parse parse' (admin : Admin)
    buffer rows rows' w :
  parse buffer = Normal rows →
  parse' buffer = Normal rows' →
  Forall2 same_columns rows rows' →
  Part000.action parse admin (Some buffer) w
  = Part000.action parse' admin (Some buffer) w
  ∧ AppIndex.action parse admin (Some buffer) w
    = AppIndex.action parse' admin (Some buffer) w.
Proof.
  intros Hparse Hparse' Hrows.
  pose proof (same_columns_missingHeaders _ _ Hrows) as Hmissing.
  pose proof (Forall2_length _ _ _ Hrows) as Hlength.
  split.
  - assert (Hbody : ∀ row row' finalLog w0, same_columns row row' →
              Part000.row_body admin row finalLog w0
              = Part000.row_body admin row' finalLog w0).
    { intros row row' finalLog w0 Hsame.
      destruct (same_columns_lookups _ _ Hsame) as (Hn & Hk & Ht & Hd).
      unfold Part000.row_body. rewrite Hn, Hk, Ht, Hd. reflexivity. }
    unfold Part000.action, bind, lift. rewrite Hparse, Hparse'.
    cbv beta iota. rewrite Hmissing, Hlength.
    destruct (length rows' =? 0)%nat; [reflexivity|].
    destruct (0 <? length (missingHeaders rows'))%nat; [reflexivity|].
    rewrite (same_columns_for_of _ rows rows' Hbody Hrows). reflexivity.
  - assert (Hbody : ∀ row row' finalLog w0, same_columns row row' →
              AppIndex.row_body admin row finalLog w0
              = AppIndex.row_body admin row' finalLog w0).
    { intros row row' finalLog w0 Hsame.
      destruct (same_columns_lookups _ _ Hsame) as (Hn & Hk & Ht & Hd).
      unfold AppIndex.row_body. rewrite Hn, Hk, Ht, Hd. reflexivity. }
    unfold AppIndex.action, bind, lift. rewrite Hparse, Hparse'.
    cbv beta iota. rewrite Hmissing.
    destruct (0 <? length (missingHeaders rows'))%nat; [reflexivity|].
    rewrite (same_columns_for_of _ rows rows' Hbody Hrows). reflexivity.
Qed.

(** C4.  A CSV that parses to zero data rows sends no request in either
    route file.  [unnamed/part_000] returns the error "CSV file is empty"
    before the header check; [app/routes/app._index.tsx] has no such test
    and returns the fixed log of its header check. *)
Theorem empty_csv `{Engine} parse (admin : Admin) buffer w :
  parse buffer = Normal [] →
  Part000.action parse admin (Some buffer) w
  = (Normal {| status := Some (str "error"); log := [empty_line] |}, w)
  ∧ AppIndex.action parse admin (Some buffer) w
    = (Normal {| status := None; log := invalid_log_index |}, w).
Proof.
  intros Hparse. split.
  - unfold Part000.action, bind, lift. rewrite Hparse. reflexivity.
  - unfold AppIndex.action, bind, lift. rewrite Hparse. reflexivity.
Qed.

(** C8.  An exception raised by the CSV decoder is not caught: the action
    completes abruptly with that exception, returns no log and sends no
    request; this holds in both route files. *)
Theorem decode_error_propagates `{Engine} parse (admin : Admin) buffer err w :
  parse buffer = Throw err →
  Part000.action parse admin (Some buffer) w = (Throw err, w)
  ∧ AppIndex.action parse admin (Some buffer) w = (Throw err, w).
Proof.
  intros Hparse. split.
  - unfold Part000.action, bind, lift. rewrite Hparse. reflexivity.
  - unfold AppIndex.action, bind, lift. rewrite Hparse. reflexivity.
Qed.

(** C7.  In [unnamed/part_000] the status of the returned data is "error"
    exactly on a structural failure (no file, no data row, a required
    header missing) and "success" otherwise, whatever the admin API
    answers for the rows; [app/routes/app._index.tsx] returns no status. *)
Theorem status_reflects_structure `{Engine} parse (admin : Admin) file w :
  (∀ buffer, file = Some buffer → ∃ rows, parse buffer = Normal rows) →
  (∃ d w',
      Part000.action parse admin file w = (Normal d, w')
      ∧ (status d = Some (str "error") ↔ structural_failure parse file)
      ∧ (status d = Some (str "success") ↔ ¬ structural_failure parse file))
  ∧ (∃ d w',
      AppIndex.action parse admin file w = (Normal d, w') ∧ status d = None).
Proof.
  intros Hparse. destruct file as [buffer|].
  - destruct (Hparse buffer eq_refl) as [rows Hrows]. split.
    + unfold Part000.action, structural_failure, bind, lift. rewrite Hrows.
      destruct rows as [|row rest].
      { eexists _, _. split; [reflexivity|]. simpl. split; split; intros Hs.
        - left. reflexivity.
        - reflexivity.
        - discriminate Hs.
        - destruct Hs. left. reflexivity. }
      change (length (row :: rest) =? 0)%nat with false. cbv iota.
      destruct (0 <? length (missingHeaders (row :: rest)))%nat eqn:Htest.
      { assert (Hh : ∃ h, h ∈ requiredHeaders
                         ∧ default ∅ (head (row :: rest)) !! h = None).
        { destruct (missingHeaders (row :: rest)) as [|h l] eqn:Hm;
            [discriminate Htest|].
          exists h. apply elem_of_missingHeaders. rewrite Hm. left. }
        eexists _, _. split; [reflexivity|]. simpl. split; split; intros Hs.
        - right. exact Hh.
        - reflexivity.
        - discriminate Hs.
        - destruct Hs. right. exact Hh. }
      apply missingHeaders_test_false in Htest.
      rewrite (for_of_lines _ _ _ (Part000_row_body_appends admin)).
      eexists _, _. split; [reflexivity|]. simpl. split; split; intros Hs.
      * discriminate Hs.
      * destruct Hs as [Hs|[h Hh]]; [discriminate Hs|].
        apply (elem_of_missingHeaders (row :: rest)) in Hh.
        rewrite Htest in Hh. inversion Hh.
      * intros [Hr|[h Hh]]; [discriminate Hr|].
        apply (elem_of_missingHeaders (row :: rest)) in Hh.
        rewrite Htest in Hh. inversion Hh.
      * reflexivity.
    + unfold AppIndex.action, bind, lift. rewrite Hrows.
      destruct (0 <? length (missingHeaders rows))%nat.
      * eexists _, _. split; reflexivity.
      * rewrite (for_of_lines _ _ _ (AppIndex_row_body_appends admin)).
        eexists _, _. split; reflexivity.
  - split.
    + eexists _, _. split; [reflexivity|]. simpl. split; split; intros Hs.
      * exact I.
      * reflexivity.
      * discriminate Hs.
      * destruct Hs. exact I.
    + eexists _, _. split; reflexivity.
Qed.

(** ** A processed row *)

Lemma not_present (x : option jsstring) (v : jsstring) :
  x = Some v → v ≠ [] → not_ x = false ∧ default [] x = v.
Proof. intros -> Hv. destruct v; [congruence|]. split; reflexivity. Qed.

Lemma Part000_row_body_processed `{Engine} (admin : Admin)
    row name key type finalLog w :
  trim <$> row !! str "Name" = Some name → name ≠ [] →
  trim <$> row !! str "Key" = Some key → key ≠ [] →
  trim <$> row !! str "Type" = Some type → type ≠ [] →
  let payload :=
    mutation_template (Part000.esc name) (Part000.esc key) (Part000.esc type)
      (Part000.esc (or_else (trim <$> row !! str "Description") [])) in
  Part000.row_body admin row finalLog w
  = (Normal (finalLog ++ [Part000.reply_line name key (admin w payload)]),
     w ++ [payload]).
Proof.
  intros Hn Hn' Hk Hk' Ht Ht' payload. subst payload.
  destruct (not_present _ _ Hn Hn') as [Gn Dn].
  destruct (not_present _ _ Hk Hk') as [Gk Dk].
  destruct (not_present _ _ Ht Ht') as [Gt Dt].
  unfold Part000.row_body. rewrite Gn, Gk, Gt, Dn, Dk, Dt. cbn [orb].
  unfold Part000.reply_line. run_body; reflexivity.
Qed.

Lemma AppIndex_row_body_processed `{Engine} (admin : Admin)
    row name key type finalLog w :
  trim <$> row !! str "Name" = Some name → name ≠ [] →
  trim <$> row !! str "Key" = Some key → key ≠ [] →
  trim <$> row !! str "Type" = Some type → type ≠ [] →
  let payload :=
    mutation_template name key type
      (or_else (trim <$> row !! str "Description") []) in
  AppIndex.row_body admin row finalLog w
  = (Normal (finalLog ++ [AppIndex.reply_line name key (admin w payload)]),
     w ++ [payload]).
Proof.
  intros Hn Hn' Hk Hk' Ht Ht' payload. subst payload.
  destruct (not_present _ _ Hn Hn') as [Gn Dn].
  destruct (not_present _ _ Hk Hk') as [Gk Dk].
  destruct (not_present _ _ Ht Ht') as [Gt Dt].
  unfold AppIndex.row_body. rewrite Gn, Gk, Gt, Dn, Dk, Dt. cbn [orb].
  unfold AppIndex.reply_line. run_body; reflexivity.
Qed.

(** ** Reading the response *)

Lemma Part000_read_field_present json field :
  lacks_operation json = false →
  Part000.read_field json field
  = Normal (get_opt (get_opt (get_opt json (str "data"))
                       (str "metafieldDefinitionCreate")) field).
Proof.
  unfold lacks_operation, Part000.read_field.
  destruct json as [| | | | | |top]; try discriminate. simpl.
  destruct (top !! str "data") as [[| | | | | |data]|]; try discriminate. simpl.
  destruct (data !! str "metafieldDefinitionCreate") as [[| | | | | |r]|];
    try discriminate; reflexivity.
Qed.

Lemma AppIndex_read_field_present json field :
  lacks_operation json = false →
  AppIndex.read_field json field
  = Normal (get_opt (get_opt (get_opt json (str "data"))
                       (str "metafieldDefinitionCreate")) field).
Proof.
  unfold lacks_operation, AppIndex.read_field.
  destruct json as [| | | | | |top]; try discriminate. simpl.
  destruct (top !! str "data") as [[| | | | | |data]|]; try discriminate. simpl.
  destruct (data !! str "metafieldDefinitionCreate") as [[| | | | | |r]|];
    try discriminate; reflexivity.
Qed.


(** ** A response without the operation's result *)

Lemma AppIndex_read_field_lacks json field :
  lacks_operation json = true →
  ∃ base prop,
    AppIndex.read_field json field = Throw (TypeError (CannotRead base prop)).
Proof.
  unfold lacks_operation, AppIndex.read_field.
  destruct json as [| | | | | |top]; simpl; eauto.
  destruct (top !! str "data") as [[| | | | | |data]|]; simpl; eauto.
  destruct (data !! str "metafieldDefinitionCreate") as [[| | | | | |r]|];
    simpl; eauto; discriminate.
Qed.

Lemma Part000_read_field_lacks json field :
  lacks_operation json = true → nullish json = false →
  Part000.read_field json field = Normal Undefined.
Proof.
  unfold lacks_operation, Part000.read_field.
  destruct json as [| | | | | |top]; simpl; try reflexivity; try discriminate.
  destruct (top !! str "data") as [[| | | | | |data]|]; simpl; try reflexivity.
  destruct (data !! str "metafieldDefinitionCreate") as [[| | | | | |r]|];
    simpl; try reflexivity; discriminate.
Qed.

Lemma Part000_read_field_nullish json field :
  nullish json = true →
  Part000.read_field json field
  = Throw (TypeError (CannotRead json (str "data"))).
Proof. destruct json; try discriminate; reflexivity. Qed.

(** C9.  Let the parsed JSON of a processed row's response lack [data] or
    [data.metafieldDefinitionCreate].  In [app/routes/app._index.tsx] the
    read throws a TypeError inside the [try] block and the row gets the
    failure line with that error's message.  In [unnamed/part_000] the row
    gets the unknown-response line, unless the parsed JSON is itself
    [null], in which case reading [json.data] throws and the row gets the
    failure line.  In both files the loop goes on with the next row. *)
Theorem missing_operation_line `{Engine} (admin : Admin)
    row rest name key type json finalLog w :
  trim <$> row !! str "Name" = Some name → name ≠ [] →
  trim <$> row !! str "Key" = Some key → key ≠ [] →
  trim <$> row !! str "Type" = Some type → type ≠ [] →
  lacks_operation json = true →
  let description := or_else (trim <$> row !! str "Description") [] in
  let payload_index := mutation_template name key type description in
  let payload_part000 :=
    mutation_template (Part000.esc name) (Part000.esc key)
      (Part000.esc type) (Part000.esc description) in
  (admin w payload_index = Normal json →
   ∃ base prop,
     let line :=
       failed_line name (type_error_message (CannotRead base prop)) in
     AppIndex.row_body admin row finalLog w
     = (Normal (finalLog ++ [line]), w ++ [payload_index])
     ∧ for_of (AppIndex.row_body admin) (row :: rest) finalLog w
       = for_of (AppIndex.row_body admin) rest (finalLog ++ [line])
           (w ++ [payload_index]))
  ∧ (admin w payload_part000 = Normal json →
     let line :=
       if nullish json
       then failed_line name
              (type_error_message (CannotRead json (str "data")))
       else unknown_line name in
     Part000.row_body admin row finalLog w
     = (Normal (finalLog ++ [line]), w ++ [payload_part000])
     ∧ for_of (Part000.row_body admin) (row :: rest) finalLog w
       = for_of (Part000.row_body admin) rest (finalLog ++ [line])
           (w ++ [payload_part000])).
Proof.
  intros Hn Hn' Hk Hk' Ht Ht' Hlacks description payload_index payload_part000.
  split.
  - intros Hreply.
    destruct (AppIndex_read_field_lacks json (str "createdDefinition") Hlacks)
      as (base & prop & Hread).
    exists base, prop. intros line.
    assert (Hbody : AppIndex.row_body admin row finalLog w
                    = (Normal (finalLog ++ [line]), w ++ [payload_index])).
    { rewrite (AppIndex_row_body_processed admin row name key type)
        by assumption.
      fold description. fold payload_index. rewrite Hreply.
      unfold AppIndex.reply_line. rewrite Hread. reflexivity. }
    split; [exact Hbody|].
    simpl. unfold bind. rewrite Hbody. reflexivity.
  - intros Hreply line.
    assert (Hbody : Part000.row_body admin row finalLog w
                    = (Normal (finalLog ++ [line]), w ++ [payload_part000])).
    { rewrite (Part000_row_body_processed admin row name key type)
        by assumption.
      fold description. fold payload_part000. rewrite Hreply.
      unfold Part000.reply_line. subst line.
      destruct (nullish json) eqn:Hnull.
      - rewrite (Part000_read_field_nullish json _ Hnull). reflexivity.
      - rewrite !(Part000_read_field_lacks json _ Hlacks Hnull). reflexivity. }
    split; [exact Hbody|].
    simpl. unfold bind. rewrite Hbody. reflexivity.
Qed.

(** ** The line of a processed row *)




(** ** The payload *)

Lemma mutation_template_segments (name key type description : jsstring) :
  mutation_template name key type description
  = seg_name ++ quoted name ++ seg_key ++ quoted key ++ seg_type
    ++ quoted type ++ seg_description ++ quoted description ++ seg_end.
Proof.
  unfold mutation_template, seg_name, seg_key, seg_type, seg_description,
    seg_end, ln.
  repeat (rewrite <- ?app_assoc, <- ?app_comm_cons). reflexivity.
Qed.

Lemma literal_after_quoted (prefix v rest : jsstring) :
  literal_after prefix (prefix ++ quoted v ++ rest) = read_literal (v ++ dquote :: rest).
Proof.
  unfold literal_after, quoted.
  rewrite drop_app_add. simpl. rewrite <- app_assoc. reflexivity.
Qed.

Lemma esc_cons (c : N) (v : jsstring) :
  Part000.esc (c :: v)
  = (if c =? backslash then [backslash; backslash]
     else if c =? dquote then [backslash; dquote] else [c])
    ++ Part000.esc v.
Proof.
  unfold Part000.esc, replace_all. simpl.
  destruct (c =? backslash) eqn:Hb; simpl.
  - reflexivity.
  - destruct (c =? dquote); reflexivity.
Qed.

Lemma read_literal_esc (v rest : jsstring) :
  read_literal (Part000.esc v ++ dquote :: rest) = Some (v, rest).
Proof.
  induction v as [|c v IH]; [reflexivity|].
  rewrite esc_cons.
  destruct (c =? backslash) eqn:Hb.
  - apply N.eqb_eq in Hb. subst c. simpl. rewrite IH. reflexivity.
  - destruct (c =? dquote) eqn:Hq.
    + apply N.eqb_eq in Hq. subst c. simpl. rewrite IH. reflexivity.
    + simpl. rewrite Hq, Hb, IH. reflexivity.
Qed.

Lemma literal_after_esc (prefix v rest payload : jsstring) :
  payload = prefix ++ quoted (Part000.esc v) ++ rest →
  literal_after prefix payload = Some (v, rest).
Proof. intros ->. rewrite literal_after_quoted. apply read_literal_esc. Qed.

(** X14.  In [unnamed/part_000] each of the four string literals of the
    payload reads back as the value it was built from, and ends where the
    template closes it. *)
Theorem escaped_literals_round_trip (name key type description : jsstring) :
  let payload :=
    mutation_template (Part000.esc name) (Part000.esc key)
      (Part000.esc type) (Part000.esc description) in
  let after_description := seg_end in
  let after_type :=
    seg_description ++ quoted (Part000.esc description) ++ after_description in
  let after_key := seg_type ++ quoted (Part000.esc type) ++ after_type in
  let after_name := seg_key ++ quoted (Part000.esc key) ++ after_key in
  literal_after seg_name payload = Some (name, after_name)
  ∧ literal_after (seg_name ++ quoted (Part000.esc name) ++ seg_key) payload
    = Some (key, after_key)
  ∧ literal_after (seg_name ++ quoted (Part000.esc name) ++ seg_key
                   ++ quoted (Part000.esc key) ++ seg_type) payload
    = Some (type, after_type)
  ∧ literal_after (seg_name ++ quoted (Part000.esc name) ++ seg_key
                   ++ quoted (Part000.esc key) ++ seg_type
                   ++ quoted (Part000.esc type) ++ seg_description) payload
    = Some (description, after_description).
Proof.
  intros payload after_description after_type after_key after_name.
  subst payload. rewrite mutation_template_segments.
  repeat split; apply literal_after_esc; rewrite <- ?app_assoc; reflexivity.
Qed.

(** C1.  [app/routes/app._index.tsx] embeds the values without escaping
    them.  For the CSV with the one row Name = a, double quote, b (Key k,
    Type t) the payload it sends holds the name literal opened after
    [name: ] which reads back as the single letter a and leaves the letter
    b and a quote outside the literal: the value does not round-trip. *)
Theorem unescaped_name_breaks_literal :
  let name := str "a" ++ [dquote] ++ str "b" in
  trim <$> Sample.quote_row !! str "Name" = Some name
  ∧ ∃ payload after,
      AppIndex.action (H := Sample.node_v8) (Sample.parses [Sample.quote_row])
        (Sample.replies Sample.created_response) (Some []) []
      = (Normal {| status := None; log := [created_line name (str "k")] |},
         [payload])
      ∧ payload = mutation_template name (str "k") (str "t") []
      ∧ literal_after seg_name payload
        = Some (str "a", str "b" ++ dquote :: after)
      ∧ ∀ rest, literal_after seg_name payload ≠ Some (name, rest).
Proof.
  intros name. split; [vm_compute; reflexivity|].
  eexists _, _. split; [vm_compute; reflexivity|].
  split; [vm_compute; reflexivity|].
  split; [vm_compute; reflexivity|].
  intros rest Heq. vm_compute in Heq. discriminate Heq.
Qed.

Lemma elem_of_requiredHeaders :
  str "Name" ∈ requiredHeaders ∧ str "Key" ∈ requiredHeaders
  ∧ str "Type" ∈ requiredHeaders.
Proof. unfold requiredHeaders. repeat split; set_solver. Qed.

(** C10.  A Description that is missing or white space only becomes the
    empty string, in both route files; but in [app/routes/app._index.tsx]
    the namespace of the payload is not fixed.  For the CSV with the one
    row of [Sample.namespace_row] the request it sends reads, field by
    field: name x, namespace evil, key a block string, type t, description
    empty, ownerType PRODUCT.  The template's own line for the namespace
    custom is swallowed by the block string. *)
Theorem injected_namespace :
  ∃ name payload,
    Requests.processed Sample.namespace_row
    = Some (name, str "k",
            [dquote; dquote] ++ str " type: " ++ [dquote] ++ str "t", [])
    ∧ name = str "x" ++ [dquote] ++ str " namespace: " ++ quoted (str "evil")
             ++ str " key: " ++ [dquote; dquote]
    ∧ AppIndex.action (H := Sample.node_v8)
        (Sample.parses [Sample.namespace_row])
        (Sample.replies Sample.created_response) (Some []) []
      = (Normal {| status := None; log := [created_line name (str "k")] |},
         [payload])
    ∧ Graph.definition_fields payload
      = Some [(str "name", Graph.StringValue (str "x"));
              (str "namespace", Graph.StringValue (str "evil"));
              (str "key",
               Graph.BlockString
                 (ln 12 (str "namespace: " ++ quoted (str "custom"))
                  ++ ln 12 (str "key: " ++ quoted (str "k"))
                  ++ ln 12 (str "type: ")));
              (str "type", Graph.StringValue (str "t"));
              (str "description", Graph.StringValue []);
              (str "ownerType", Graph.Word (str "PRODUCT"))].
Proof.
  eexists _, _. split; [vm_compute; reflexivity|].
  split; [vm_compute; reflexivity|].
  split; [vm_compute; reflexivity|].
  vm_compute. reflexivity.
Qed.

(** ** The claims at sample inputs *)

Section Samples.
Import Sample.
#[local] Existing Instance node_v8.

Lemma log_one_entry_per_row_witness :
  parses [color_row; blank_key_row] [] = Normal [color_row; blank_key_row]
  ∧ missingHeaders [color_row; blank_key_row] = []
  ∧ ∃ finalLog w',
      Part000.action (parses [color_row; blank_key_row])
        (replies created_response) (Some []) []
      = (Normal {| status := Some (str "success"); log := finalLog |}, w')
      ∧ length finalLog = 2%nat
      ∧ finalLog !! 0%nat = Some (created_line (str "Color") (str "color"))
      ∧ finalLog !! 1%nat = Some skip_line.
Proof.
  split; [reflexivity|]. split; [vm_compute; reflexivity|].
  destruct (proj1 (log_one_entry_per_row (parses [color_row; blank_key_row])
                     (replies created_response) [] [color_row; blank_key_row] []
                     eq_refl ltac:(vm_compute; reflexivity)))
    as (finalLog & w' & Haction & Hlength & Hlines).
  exists finalLog, w'. split; [exact Haction|]. split; [exact Hlength|]. split.
  - rewrite (Hlines 0%nat color_row eq_refl). vm_compute. reflexivity.
  - rewrite (Hlines 1%nat blank_key_row eq_refl). vm_compute. reflexivity.
Defined.


Lemma empty_csv_witness :
  parses [] [] = Normal []
  ∧ Part000.action (parses []) (replies created_response) (Some []) []
    = (Normal {| status := Some (str "error"); log := [empty_line] |}, [])
  ∧ AppIndex.action (parses []) (replies created_response) (Some []) []
    = (Normal {| status := None; log := invalid_log_index |}, []).
Proof.
  split; [reflexivity|].
  exact (empty_csv (parses []) (replies created_response) [] [] eq_refl).
Defined.

Lemma blank_row_is_skipped_witness :
  blank blank_key_row (str "Key")
  ∧ Part000.row_body (replies created_response) blank_key_row [] []
    = (Normal [skip_line], [])
  ∧ AppIndex.row_body (replies created_response) blank_key_row [] []
    = (Normal [skip_line], []).
Proof.
  assert (Hblank : blank blank_key_row (str "Key")).
  { unfold blank. replace (blank_key_row !! str "Key") with (Some (str "  "))
      by (vm_compute; reflexivity).
    repeat constructor. }
  split; [exact Hblank|].
  destruct (blank_row_is_skipped (replies created_response) blank_key_row []
              [] [] (or_intror (or_introl Hblank))) as ((HP & _) & (HA & _)).
  split; [exact HP | exact HA].
Defined.

Lemma missing_header_aborts_witness :
  parses [no_key_row; color_row] [] = Normal [no_key_row; color_row]
  ∧ str "Key" ∈ requiredHeaders
  ∧ no_key_row !! str "Key" = None
  ∧ Part000.action (parses [no_key_row; color_row])
      (replies created_response) (Some []) []
    = (Normal {| status := Some (str "error"); log := invalid_log_part000 |}, [])
  ∧ AppIndex.action (parses [no_key_row; color_row])
      (replies created_response) (Some []) []
    = (Normal {| status := None; log := invalid_log_index |}, []).
Proof.
  assert (Hin : str "Key" ∈ requiredHeaders)
    by exact (proj1 (proj2 elem_of_requiredHeaders)).
  assert (Hnone : no_key_row !! str "Key" = None) by (vm_compute; reflexivity).
  split; [reflexivity|]. split; [exact Hin|]. split; [exact Hnone|].
  exact (missing_header_aborts (parses [no_key_row; color_row])
           (replies created_response) [] no_key_row [color_row] (str "Key") []
           eq_refl Hin Hnone).
Defined.

Lemma status_reflects_structure_witness :
  (∀ buffer, Some ([] : Buffer) = Some buffer →
     ∃ rows, parses [blank_key_row] buffer = Normal rows)
  ∧ ∃ d w',
      Part000.action (parses [blank_key_row]) (replies created_response)
        (Some []) [] = (Normal d, w')
      ∧ log d = [skip_line]
      ∧ status d = Some (str "success").
Proof.
  assert (Hparse : ∀ buffer, Some ([] : Buffer) = Some buffer →
                     ∃ rows, parses [blank_key_row] buffer = Normal rows).
  { intros buffer _. exists [blank_key_row]. reflexivity. }
  split; [exact Hparse|].
  destruct (proj1 (status_reflects_structure (parses [blank_key_row])
                     (replies created_response) (Some []) [] Hparse))
    as (d & w' & Haction & _ & Hsuccess).
  exists d, w'. split; [exact Haction|].
  assert (Hrun : Part000.action (parses [blank_key_row])
                    (replies created_response) (Some []) []
                  = (Normal {| status := Some (str "success");
                               log := [skip_line] |}, []))
    by (vm_compute; reflexivity).
  assert (Hd : d = {| status := Some (str "success"); log := [skip_line] |})
    by congruence.
  rewrite Hd. split; reflexivity.
Defined.

Lemma decode_error_propagates_witness :
  fails (Failure (str "Invalid Record Length")) [] 
  = Throw (Failure (str "Invalid Record Length"))
  ∧ Part000.action (fails (Failure (str "Invalid Record Length")))
      (replies created_response) (Some []) []
    = (Throw (Failure (str "Invalid Record Length")), [])
  ∧ AppIndex.action (fails (Failure (str "Invalid Record Length")))
      (replies created_response) (Some []) []
    = (Throw (Failure (str "Invalid Record Length")), []).
Proof.
  split; [reflexivity|].
  exact (decode_error_propagates (fails (Failure (str "Invalid Record Length")))
           (replies created_response) [] _ [] eq_refl).
Defined.

Lemma missing_operation_line_witness :
  lacks_operation (Obj ∅) = true
  ∧ (∃ base prop payload,
       AppIndex.row_body (replies (Obj ∅)) color_row [] []
       = (Normal
            [failed_line (str "Color")
               (type_error_message (CannotRead base prop))],
          [payload]))
  ∧ (∃ payload,
       Part000.row_body (replies (Obj ∅)) color_row [] []
       = (Normal [unknown_line (str "Color")], [payload])).
Proof.
  assert (Hn : trim <$> color_row !! str "Name" = Some (str "Color"))
    by (vm_compute; reflexivity).
  assert (Hk : trim <$> color_row !! str "Key" = Some (str "color"))
    by (vm_compute; reflexivity).
  assert (Ht : trim <$> color_row !! str "Type"
               = Some (str "single_line_text_field"))
    by (vm_compute; reflexivity).
  split; [reflexivity|].
  destruct (missing_operation_line (replies (Obj ∅)) color_row [] _ _ _
              (Obj ∅) [] [] Hn ltac:(discriminate) Hk ltac:(discriminate)
              Ht ltac:(discriminate) eq_refl) as (Hindex & Hpart).
  split.
  - destruct (Hindex eq_refl) as (base & prop & Hbody & _).
    exists base, prop. eexists. rewrite Hbody. reflexivity.
  - destruct (Hpart eq_refl) as (Hbody & _).
    eexists. rewrite Hbody. reflexivity.
Defined.


(** C4, as stated, fails in [app/routes/app._index.tsx]: for a CSV without
    data rows it returns the log of the header check, not the line
    "CSV file is empty". *)
Lemma empty_csv_counterexample :
  ∃ d, AppIndex.action (parses []) (replies created_response) (Some []) []
       = (Normal d, [])
       ∧ log d = invalid_log_index
       ∧ log d ≠ [empty_line].
Proof.
  eexists. split; [vm_compute; reflexivity|].
  split; [vm_compute; reflexivity|]. vm_compute. discriminate.
Qed.

(** C7, as stated, fails in [app/routes/app._index.tsx]: without a file, a
    structural failure, the data it returns has no status at all. *)
Lemma status_counterexample :
  structural_failure (parses []) None
  ∧ ∃ d, AppIndex.action (parses []) (replies created_response) None []
         = (Normal d, [])
         ∧ status d ≠ Some (str "error").
Proof.
  split; [exact I|].
  eexists. split; [reflexivity|]. simpl. discriminate.
Qed.

(** C9, as stated, fails in [unnamed/part_000]: the parsed JSON [null]
    lacks [data], and the row gets the failure line, not the
    unknown-response line. *)
Lemma missing_operation_counterexample :
  lacks_operation Null = true
  ∧ ∃ line payload,
      Part000.row_body (replies Null) color_row [] []
      = (Normal [line], [payload])
      ∧ line = failed_line (str "Color")
                 (str "Cannot read properties of null (reading 'data')")
      ∧ line ≠ unknown_line (str "Color").
Proof.
  split; [reflexivity|].
  eexists _, _. split; [vm_compute; reflexivity|].
  split; [vm_compute; reflexivity|]. vm_compute. discriminate.
Qed.

End Samples.

(** * Further properties of the two route files *)

Import Requests.

(** ** Which rows are skipped *)

Lemma trimStart_nil_inv (s : jsstring) :
  trimStart s = [] → Forall (λ c, is_white_space c = true) s.
Proof.
  induction s as [|c s IH]; [constructor|].
  simpl. destruct (is_white_space c) eqn:Hc; [|discriminate].
  intros Hs. constructor; [exact Hc | exact (IH Hs)].
Qed.

Lemma trimStart_head (s r : jsstring) (c : N) :
  trimStart s = c :: r → is_white_space c = false.
Proof.
  induction s as [|x s IH]; [discriminate|].
  simpl. destruct (is_white_space x) eqn:Hx; [exact IH|].
  intros [= <- _]. exact Hx.
Qed.

Lemma trim_nil_inv (v : jsstring) :
  trim v = [] → Forall (λ c, is_white_space c = true) v.
Proof.
  unfold trim, trimEnd. intros Hv.
  apply (f_equal reverse) in Hv. rewrite reverse_involutive in Hv.
  change (reverse []) with (@nil N) in Hv.
  apply trimStart_nil_inv, Forall_reverse in Hv.
  rewrite reverse_involutive in Hv.
  apply trimStart_nil_inv.
  destruct (trimStart v) as [|c r] eqn:Hs; [reflexivity|].
  apply trimStart_head in Hs. inversion Hv; congruence.
Qed.

Lemma not_true_iff_blank (row : Row) (column : jsstring) :
  not_ (trim <$> row !! column) = true ↔ blank row column.
Proof.
  split; [|apply not_blank].
  unfold blank. destruct (row !! column) as [v|]; simpl; [|trivial].
  destruct (trim v) eqn:Hv; [|discriminate].
  intros _. apply trim_nil_inv. exact Hv.
Qed.

Lemma processed_None_iff (row : Row) :
  processed row = None
  ↔ blank row (str "Name") ∨ blank row (str "Key") ∨ blank row (str "Type").
Proof.
  unfold processed. rewrite <- !not_true_iff_blank.
  destruct (not_ (trim <$> row !! str "Name"));
    destruct (not_ (trim <$> row !! str "Key"));
    destruct (not_ (trim <$> row !! str "Type")); simpl;
    split; try (intros _; auto; fail); try discriminate;
    intros [Hx|[Hx|Hx]]; discriminate Hx.
Qed.

Lemma Part000_row_body_skip `{Engine} (admin : Admin) row finalLog w :
  processed row = None →
  Part000.row_body admin row finalLog w = (Normal (finalLog ++ [skip_line]), w).
Proof.
  unfold processed, Part000.row_body.
  destruct (not_ _ || not_ _ || not_ _); [reflexivity | discriminate].
Qed.

Lemma AppIndex_row_body_skip `{Engine} (admin : Admin) row finalLog w :
  processed row = None →
  AppIndex.row_body admin row finalLog w = (Normal (finalLog ++ [skip_line]), w).
Proof.
  unfold processed, AppIndex.row_body.
  destruct (not_ _ || not_ _ || not_ _); [reflexivity | discriminate].
Qed.

Lemma Part000_row_body_fields `{Engine} (admin : Admin)
    row name key type description finalLog w :
  processed row = Some (name, key, type, description) →
  let payload := payload_part000 (name, key, type, description) in
  Part000.row_body admin row finalLog w
  = (Normal (finalLog ++ [Part000.reply_line name key (admin w payload)]),
     w ++ [payload]).
Proof.
  unfold processed, Part000.row_body, payload_part000.
  destruct (not_ _ || not_ _ || not_ _); [discriminate|].
  intros [= -> -> -> ->]. unfold Part000.reply_line. run_body; reflexivity.
Qed.

Lemma AppIndex_row_body_fields `{Engine} (admin : Admin)
    row name key type description finalLog w :
  processed row = Some (name, key, type, description) →
  let payload := payload_index (name, key, type, description) in
  AppIndex.row_body admin row finalLog w
  = (Normal (finalLog ++ [AppIndex.reply_line name key (admin w payload)]),
     w ++ [payload]).
Proof.
  unfold processed, AppIndex.row_body, payload_index.
  destruct (not_ _ || not_ _ || not_ _); [discriminate|].
  intros [= -> -> -> ->]. unfold AppIndex.reply_line. run_body; reflexivity.
Qed.

(** No line for a processed row is the skip line. *)
Lemma arrow_not_in_skip_line : 0x2192 ∉ skip_line.
Proof.
  apply (bool_decide_eq_false_1 (0x2192 ∈ skip_line)). vm_compute. reflexivity.
Qed.

Lemma created_line_not_skip name key : created_line name key ≠ skip_line.
Proof. intros Heq. apply (f_equal head) in Heq. vm_compute in Heq. discriminate. Qed.

Lemma failed_line_not_skip name msg : failed_line name msg ≠ skip_line.
Proof. intros Heq. apply (f_equal head) in Heq. vm_compute in Heq. discriminate. Qed.

Lemma unknown_line_not_skip name : unknown_line name ≠ skip_line.
Proof.
  intros Heq. apply (f_equal (take 4)) in Heq. vm_compute in Heq. discriminate.
Qed.

Lemma user_errors_line_not_skip name joined :
  user_errors_line name joined ≠ skip_line.
Proof.
  intros Heq. apply arrow_not_in_skip_line. rewrite <- Heq.
  unfold user_errors_line, right_arrow. set_solver.
Qed.

Lemma Part000_reply_line_not_skip `{Engine} name key reply :
  Part000.reply_line name key reply ≠ skip_line.
Proof.
  unfold Part000.reply_line.
  repeat match goal with
         | |- context [match ?c with Normal _ => _ | Throw _ => _ end] =>
             destruct c
         | |- context [if ?b then _ else _] => destruct b
         end;
    auto using created_line_not_skip, failed_line_not_skip,
      unknown_line_not_skip, user_errors_line_not_skip.
Qed.

Lemma AppIndex_reply_line_not_skip `{Engine} name key reply :
  AppIndex.reply_line name key reply ≠ skip_line.
Proof.
  unfold AppIndex.reply_line.
  repeat match goal with
         | |- context [match ?c with Normal _ => _ | Throw _ => _ end] =>
             destruct c
         | |- context [if ?b then _ else _] => destruct b
         end;
    auto using created_line_not_skip, failed_line_not_skip,
      unknown_line_not_skip, user_errors_line_not_skip.
Qed.

Lemma snoc_ne {A} (w : list A) (x : A) : w ++ [x] ≠ w.
Proof.
  intros Heq. apply (f_equal length) in Heq. rewrite length_app in Heq.
  simpl in Heq. lia.
Qed.

(** X1.  The validation of a row is exact: the loop body sends no request
    for a row, and appends the skip line for it, if and only if its Name,
    Key or Type is missing, empty or white space only; this holds in both
    route files, whatever the admin API answers. *)
Theorem skipped_iff_blank `{Engine} (admin : Admin) row w :
  let blank_row :=
    blank row (str "Name") ∨ blank row (str "Key") ∨ blank row (str "Type") in
  (Part000.row_world admin row w = w ↔ blank_row)
  ∧ (Part000.row_line admin row w = skip_line ↔ blank_row)
  ∧ (AppIndex.row_world admin row w = w ↔ blank_row)
  ∧ (AppIndex.row_line admin row w = skip_line ↔ blank_row).
Proof.
  intros blank_row. subst blank_row. rewrite <- processed_None_iff.
  unfold Part000.row_world, Part000.row_line, AppIndex.row_world,
    AppIndex.row_line.
  destruct (processed row) as [[[[name key] type] description]|] eqn:Hrow.
  - rewrite (Part000_row_body_fields admin row _ _ _ _ [] w Hrow).
    rewrite (AppIndex_row_body_fields admin row _ _ _ _ [] w Hrow).
    simpl. repeat split; try discriminate; intros Heq; exfalso.
    + exact (snoc_ne _ _ Heq).
    + exact (Part000_reply_line_not_skip _ _ _ Heq).
    + exact (snoc_ne _ _ Heq).
    + exact (AppIndex_reply_line_not_skip _ _ _ Heq).
  - rewrite (Part000_row_body_skip admin row [] w Hrow).
    rewrite (AppIndex_row_body_skip admin row [] w Hrow).
    simpl. repeat split; reflexivity.
Qed.

(** ** The requests a run sends *)

Lemma Part000_world_after `{Engine} (admin : Admin) rows : ∀ w,
  world_after (Part000.row_world admin) rows w
  = w ++ omap (λ row, payload_part000 <$> processed row) rows.
Proof.
  induction rows as [|row rest IH]; intros w; simpl.
  - rewrite app_nil_r. reflexivity.
  - rewrite IH. unfold Part000.row_world.
    destruct (processed row) as [[[[name key] type] description]|] eqn:Hrow.
    + rewrite (Part000_row_body_fields admin row _ _ _ _ [] w Hrow).
      simpl. rewrite <- app_assoc. reflexivity.
    + rewrite (Part000_row_body_skip admin row [] w Hrow). reflexivity.
Qed.

Lemma AppIndex_world_after `{Engine} (admin : Admin) rows : ∀ w,
  world_after (AppIndex.row_world admin) rows w
  = w ++ omap (λ row, payload_index <$> processed row) rows.
Proof.
  induction rows as [|row rest IH]; intros w; simpl.
  - rewrite app_nil_r. reflexivity.
  - rewrite IH. unfold AppIndex.row_world.
    destruct (processed row) as [[[[name key] type] description]|] eqn:Hrow.
    + rewrite (AppIndex_row_body_fields admin row _ _ _ _ [] w Hrow).
      simpl. rewrite <- app_assoc. reflexivity.
    + rewrite (AppIndex_row_body_skip admin row [] w Hrow). reflexivity.
Qed.

(** X2.  When the header check passes, the requests a run sends are exactly
    the mutations of the rows that are not skipped, one per row and in row
    order, whatever the admin API answers: a failed or rejected row is not
    retried and does not stop the rows after it.  This holds in both route
    files. *)
Theorem requests_are_the_processed_rows `{Engine} parse (admin : Admin)
    buffer rows w :
  parse buffer = Normal rows →
  missingHeaders rows = [] →
  (Part000.action parse admin (Some buffer) w).2
  = w ++ omap (λ row, payload_part000 <$> processed row) rows
  ∧ (AppIndex.action parse admin (Some buffer) w).2
    = w ++ omap (λ row, payload_index <$> processed row) rows.
Proof.
  intros Hparse Hmissing. split.
  - unfold Part000.action, bind, lift. rewrite Hparse.
    rewrite (missingHeaders_nil_inv rows Hmissing), Hmissing. simpl.
    rewrite (for_of_lines _ _ _ (Part000_row_body_appends admin)). simpl.
    apply Part000_world_after.
  - unfold AppIndex.action, bind, lift. rewrite Hparse, Hmissing. simpl.
    rewrite (for_of_lines _ _ _ (AppIndex_row_body_appends admin)). simpl.
    apply AppIndex_world_after.
Qed.

(** ** The created line *)

Lemma get_opt_nullish (v : value) (p : jsstring) :
  nullish v = true → get_opt v p = Undefined.
Proof. destruct v; try discriminate; reflexivity. Qed.

Lemma created_line_not_failed name key msg :
  created_line name key ≠ failed_line name msg.
Proof. intros Heq. apply (f_equal head) in Heq. vm_compute in Heq. discriminate. Qed.

Lemma created_line_not_unknown name key : created_line name key ≠ unknown_line name.
Proof. intros Heq. apply (f_equal head) in Heq. vm_compute in Heq. discriminate. Qed.

Lemma created_line_not_user_errors name key joined :
  created_line name key ≠ user_errors_line name joined.
Proof. intros Heq. apply (f_equal head) in Heq. vm_compute in Heq. discriminate. Qed.

Lemma reply_line_created_iff `{Engine}
    (reply_line : jsstring → jsstring → Completion value → jsstring)
    (read_field : value → jsstring → Completion value) name key :
  (∀ reply, reply_line name key reply =
     match reply with
     | Throw err => failed_line name (message err)
     | Normal json =>
         match read_field json (str "createdDefinition") with
         | Throw err => failed_line name (message err)
         | Normal created =>
             match read_field json (str "userErrors") with
             | Throw err => failed_line name (message err)
             | Normal errors =>
                 if truthy created then created_line name key
                 else if has_length errors then
                   match map_message errors with
                   | Throw err => failed_line name (message err)
                   | Normal messages =>
                       user_errors_line name (join (str ", ") messages)
                   end
                 else unknown_line name
             end
         end
     end) →
  (∀ json field, lacks_operation json = false →
     read_field json field
     = Normal (get_opt (get_opt (get_opt json (str "data"))
                          (str "metafieldDefinitionCreate")) field)) →
  (∀ json field, lacks_operation json = true →
     read_field json field = Normal Undefined
     ∨ ∃ err, read_field json field = Throw err) →
  ∀ reply,
    reply_line name key reply = created_line name key
    ↔ ∃ json,
        reply = Normal json
        ∧ truthy (get_opt (get_opt (get_opt json (str "data"))
                             (str "metafieldDefinitionCreate"))
                    (str "createdDefinition")) = true.
Proof.
  intros Hline Hpresent Hlacks reply. rewrite Hline. split.
  - destruct reply as [json|err];
      [|intros Heq; symmetry in Heq; destruct (created_line_not_failed _ _ _ Heq)].
    intros Heq. exists json. split; [reflexivity|].
    destruct (lacks_operation json) eqn:Hl.
    + exfalso. revert Heq.
      destruct (Hlacks json (str "createdDefinition") Hl) as [-> | [err ->]];
        [|intros Heq; symmetry in Heq; exact (created_line_not_failed _ _ _ Heq)].
      destruct (Hlacks json (str "userErrors") Hl) as [-> | [err ->]];
        [|intros Heq; symmetry in Heq; exact (created_line_not_failed _ _ _ Heq)].
      simpl. intros Heq. symmetry in Heq.
      exact (created_line_not_unknown _ _ Heq).
    + rewrite !(Hpresent _ _ Hl) in Heq.
      destruct (truthy _) eqn:Ht in Heq; [exact Ht|]. exfalso. revert Heq.
      destruct (has_length _);
        [destruct (map_message _)|]; intros Heq; symmetry in Heq.
      * exact (created_line_not_user_errors _ _ _ Heq).
      * exact (created_line_not_failed _ _ _ Heq).
      * exact (created_line_not_unknown _ _ Heq).
  - intros (json & -> & Ht).
    assert (Hl : lacks_operation json = false).
    { destruct (lacks_operation json) eqn:Hl; [|reflexivity].
      unfold lacks_operation in Hl. rewrite (get_opt_nullish _ _ Hl) in Ht.
      discriminate Ht. }
    rewrite !(Hpresent _ _ Hl), Ht. reflexivity.
Qed.

(** X3.  No false success: for a processed row the line appended is the
    created line if and only if the exchange returned JSON whose
    [data.metafieldDefinitionCreate.createdDefinition] is truthy; a thrown
    exchange, user errors or an unrecognised response never give it.  This
    holds in both route files. *)
Theorem created_line_iff `{Engine} (admin : Admin)
    row name key type description w :
  processed row = Some (name, key, type, description) →
  let created_in (payload : jsstring) :=
    ∃ json,
      admin w payload = Normal json
      ∧ truthy (get_opt (get_opt (get_opt json (str "data"))
                           (str "metafieldDefinitionCreate"))
                  (str "createdDefinition")) = true in
  (Part000.row_line admin row w = created_line name key
   ↔ created_in (payload_part000 (name, key, type, description)))
  ∧ (AppIndex.row_line admin row w = created_line name key
     ↔ created_in (payload_index (name, key, type, description))).
Proof.
  intros Hrow created_in. subst created_in.
  unfold Part000.row_line, AppIndex.row_line.
  rewrite (Part000_row_body_fields admin row _ _ _ _ [] w Hrow).
  rewrite (AppIndex_row_body_fields admin row _ _ _ _ [] w Hrow).
  cbn [app last default]. split.
  - apply (reply_line_created_iff Part000.reply_line Part000.read_field).
    + reflexivity.
    + apply Part000_read_field_present.
    + intros json field Hl. destruct (nullish json) eqn:Hn.
      * right. eexists. apply Part000_read_field_nullish. exact Hn.
      * left. apply Part000_read_field_lacks; assumption.
  - apply (reply_line_created_iff AppIndex.reply_line AppIndex.read_field).
    + reflexivity.
    + apply AppIndex_read_field_present.
    + intros json field Hl. right.
      destruct (AppIndex_read_field_lacks json field Hl) as (base & prop & Hr).
      eexists. exact Hr.
Qed.

(** ** What the action returns *)

(** X4.  In [unnamed/part_000] a result with status "error" means that
    nothing was sent: the world is unchanged and the log is one of the
    three fixed structural logs. *)
Theorem error_status_sends_nothing `{Engine} parse (admin : Admin) file w d w' :
  Part000.action parse admin file w = (Normal d, w') →
  status d = Some (str "error") →
  w' = w
  ∧ (log d = [no_file_line] ∨ log d = [empty_line]
     ∨ log d = invalid_log_part000).
Proof.
  unfold Part000.action, bind, lift, ret.
  destruct file as [buffer|]; [|intros [= <- <-] _; auto].
  destruct (parse buffer) as [rows|err]; [|discriminate].
  destruct (length rows =? 0)%nat; [intros [= <- <-] _; auto|].
  destruct (0 <? length (missingHeaders rows))%nat;
    [intros [= <- <-] _; auto|].
  rewrite (for_of_lines _ _ _ (Part000_row_body_appends admin)).
  intros [= <- <-] Hstatus. discriminate Hstatus.
Qed.

(** X5.  Whenever an action returns, its log holds at least one line. *)
Theorem log_never_empty `{Engine} parse (admin : Admin) file w d w' :
  Part000.action parse admin file w = (Normal d, w')
  ∨ AppIndex.action parse admin file w = (Normal d, w') →
  log d ≠ [].
Proof.
  assert (Hlines : ∀ line_of next rows (w0 : World),
            rows ≠ [] → [] ++ lines line_of next rows w0 ≠ []).
  { intros line_of next [|row rest] w0 Hrows; [congruence | discriminate]. }
  unfold Part000.action, AppIndex.action, bind, lift, ret.
  intros [Hrun|Hrun]; revert Hrun.
  - destruct file as [buffer|]; [|intros [= <- <-]; discriminate].
    destruct (parse buffer) as [rows|err]; [|discriminate].
    destruct (length rows =? 0)%nat eqn:Hlen; [intros [= <- <-]; discriminate|].
    destruct (0 <? length (missingHeaders rows))%nat;
      [intros [= <- <-]; discriminate|].
    rewrite (for_of_lines _ _ _ (Part000_row_body_appends admin)).
    intros [= <- <-]. simpl log. apply Hlines. intros ->. discriminate Hlen.
  - destruct file as [buffer|]; [|intros [= <- <-]; discriminate].
    destruct (parse buffer) as [rows|err]; [|discriminate].
    destruct (0 <? length (missingHeaders rows))%nat eqn:Htest;
      [intros [= <- <-]; discriminate|].
    rewrite (for_of_lines _ _ _ (AppIndex_row_body_appends admin)).
    intros [= <- <-]. simpl log. apply Hlines. intros ->.
    apply missingHeaders_test_false in Htest. discriminate Htest.
Qed.

(** X6.  The header check passes exactly when there is a first row and it
    has the three columns Name, Key and Type. *)
Theorem header_check_passes_iff (rows : list Row) :
  missingHeaders rows = []
  ↔ ∃ row rest,
      rows = row :: rest
      ∧ is_Some (row !! str "Name") ∧ is_Some (row !! str "Key")
      ∧ is_Some (row !! str "Type").
Proof.
  destruct elem_of_requiredHeaders as (InN & InK & InT). split.
  - intros Hmissing. destruct rows as [|row rest]; [discriminate|].
    exists row, rest. split; [reflexivity|].
    assert (Hhas : ∀ h, h ∈ requiredHeaders → is_Some (row !! h)).
    { intros h Hh. destruct (row !! h) eqn:Hrow; [eauto|].
      assert (Hin : h ∈ missingHeaders (row :: rest))
        by (apply elem_of_missingHeaders; auto).
      rewrite Hmissing in Hin. inversion Hin. }
    auto.
  - intros (row & rest & -> & HN & HK & HT).
    destruct (missingHeaders (row :: rest)) as [|h l] eqn:Hm; [reflexivity|].
    assert (Hin : h ∈ missingHeaders (row :: rest)) by (rewrite Hm; left).
    apply elem_of_missingHeaders in Hin as [Hh Hnone]. simpl in Hnone.
    unfold requiredHeaders in Hh.
    repeat (apply elem_of_cons in Hh as [->|Hh];
            [rewrite Hnone in *;
             match goal with Hx : is_Some None |- _ => destruct Hx; discriminate end|]).
    inversion Hh.
Qed.

(** ** Escaping *)

Lemma special_cases (c : N) :
  (c =? backslash) = true ∧ special c = true
  ∨ (c =? backslash) = false ∧ (c =? dquote) = true ∧ special c = true
  ∨ (c =? backslash) = false ∧ (c =? dquote) = false ∧ special c = false.
Proof.
  unfold special. destruct (c =? backslash) eqn:Hb, (c =? dquote) eqn:Hq;
    simpl; auto.
Qed.

(** X7.  [esc] is injective: two different values never escape to the same
    text. *)
Theorem esc_injective (a b : jsstring) :
  Part000.esc a = Part000.esc b → a = b.
Proof.
  intros Heq.
  pose proof (read_literal_esc a []) as Ha.
  pose proof (read_literal_esc b []) as Hb.
  rewrite Heq in Ha. congruence.
Qed.

(** X8.  [esc] adds exactly one code unit for each double quote and each
    backslash of the value, and nothing else. *)
Theorem esc_length (v : jsstring) :
  length (Part000.esc v)
  = (length v + length (filter (λ c, special c = true) v))%nat.
Proof.
  induction v as [|c v IH]; [reflexivity|].
  rewrite esc_cons, filter_cons, length_app, IH.
  destruct (special_cases c) as [(-> & Hs)|[(-> & -> & Hs)|(-> & -> & Hs)]];
    rewrite Hs; case_decide; try congruence; simpl; lia.
Qed.

Lemma esc_plain (v : jsstring) : plain v → Part000.esc v = v.
Proof.
  induction 1 as [|c v Hc _ IH]; [reflexivity|].
  rewrite esc_cons, IH.
  destruct (special_cases c) as [(_ & Hs)|[(_ & _ & Hs)|(-> & -> & _)]];
    [congruence | congruence | reflexivity].
Qed.

(** X9.  [esc] leaves a value unchanged exactly when the value holds no
    double quote and no backslash. *)
Theorem esc_fixed_iff_plain (v : jsstring) : Part000.esc v = v ↔ plain v.
Proof.
  unfold plain. split.
  - intros Heq. apply (f_equal length) in Heq. rewrite esc_length in Heq.
    assert (Hnone : filter (λ c, special c = true) v = []).
    { destruct (filter _ v); [reflexivity | simpl in Heq; lia]. }
    apply Forall_forall. intros c Hc.
    destruct (special c) eqn:Hs; [|reflexivity].
    assert (Hin : c ∈ filter (λ c, special c = true) v)
      by (apply list_elem_of_filter; auto).
    rewrite Hnone in Hin. inversion Hin.
  - apply esc_plain.
Qed.

Lemma quoted_esc_inj (a b r1 r2 : jsstring) :
  quoted (Part000.esc a) ++ r1 = quoted (Part000.esc b) ++ r2 →
  a = b ∧ r1 = r2.
Proof.
  unfold quoted. simpl. rewrite <- !app_assoc. simpl. intros [= Heq].
  pose proof (read_literal_esc a r1) as Ha.
  pose proof (read_literal_esc b r2) as Hb.
  rewrite Heq in Ha. split; congruence.
Qed.

(** X10.  In [unnamed/part_000] the payload determines the four values it
    was built from: two processed rows that differ in their trimmed Name,
    Key, Type or Description never send the same request. *)
Theorem payload_part000_injective
    (fields fields' : jsstring * jsstring * jsstring * jsstring) :
  payload_part000 fields = payload_part000 fields' → fields = fields'.
Proof.
  destruct fields as [[[n k] t] d], fields' as [[[n' k'] t'] d'].
  unfold payload_part000. rewrite !mutation_template_segments.
  intros Heq.
  apply app_inv_head, quoted_esc_inj in Heq as [-> Heq].
  apply app_inv_head, quoted_esc_inj in Heq as [-> Heq].
  apply app_inv_head, quoted_esc_inj in Heq as [-> Heq].
  apply app_inv_head, quoted_esc_inj in Heq as [-> _].
  reflexivity.
Qed.

(** ** The two route files side by side *)

Lemma trimStart_plain (v : jsstring) : plain v → plain (trimStart v).
Proof.
  unfold plain. induction 1 as [|c v Hc Hv IH]; [constructor|].
  simpl. destruct (is_white_space c); [exact IH | constructor; assumption].
Qed.

Lemma trim_plain (v : jsstring) : plain v → plain (trim v).
Proof.
  intros Hv. unfold trim, trimEnd.
  apply Forall_reverse, trimStart_plain, Forall_reverse, trimStart_plain, Hv.
Qed.

Lemma trimmed_plain (row : Row) (column v : jsstring) :
  plain_row row →
  column ∈ [str "Name"; str "Key"; str "Type"; str "Description"] →
  trim <$> row !! column = Some v → plain v.
Proof.
  intros Hrow Hcolumn. destruct (row !! column) as [x|] eqn:Hx; [|discriminate].
  intros [= <-]. apply trim_plain. exact (Hrow column x Hcolumn Hx).
Qed.

Lemma processed_plain (row : Row) name key type description :
  plain_row row →
  processed row = Some (name, key, type, description) →
  plain name ∧ plain key ∧ plain type ∧ plain description.
Proof.
  intros Hrow. unfold processed.
  destruct (trim <$> row !! str "Name") as [n|] eqn:Hn; [|discriminate].
  destruct (trim <$> row !! str "Key") as [k|] eqn:Hk;
    [|rewrite orb_true_r; discriminate].
  destruct (trim <$> row !! str "Type") as [t|] eqn:Ht;
    [|rewrite orb_true_r; discriminate].
  destruct (_ || _ || _); [discriminate|]. simpl. intros [= <- <- <- <-].
  repeat split.
  - apply (trimmed_plain row (str "Name")); [assumption | set_solver | assumption].
  - apply (trimmed_plain row (str "Key")); [assumption | set_solver | assumption].
  - apply (trimmed_plain row (str "Type")); [assumption | set_solver | assumption].
  - destruct (trim <$> row !! str "Description") as [[|c d]|] eqn:Hd; simpl.
    + constructor.
    + apply (trimmed_plain row (str "Description") (c :: d));
        [assumption | set_solver | assumption].
    + constructor.
Qed.

Lemma reply_line_agree `{Engine} name key reply :
  (∀ json, reply = Normal json → lacks_operation json = false) →
  Part000.reply_line name key reply = AppIndex.reply_line name key reply.
Proof.
  intros Hshape. destruct reply as [json|err]; [|reflexivity].
  unfold Part000.reply_line, AppIndex.reply_line.
  rewrite !(Part000_read_field_present json _ (Hshape json eq_refl)).
  rewrite !(AppIndex_read_field_present json _ (Hshape json eq_refl)).
  reflexivity.
Qed.

Lemma row_body_agree `{Engine} (admin : Admin) row finalLog w :
  plain_row row →
  (∀ w0 q json, admin w0 q = Normal json → lacks_operation json = false) →
  Part000.row_body admin row finalLog w = AppIndex.row_body admin row finalLog w.
Proof.
  intros Hrow Hshape.
  destruct (processed row) as [[[[name key] type] description]|] eqn:Hp.
  - rewrite (Part000_row_body_fields admin row _ _ _ _ finalLog w Hp).
    rewrite (AppIndex_row_body_fields admin row _ _ _ _ finalLog w Hp).
    destruct (processed_plain _ _ _ _ _ Hrow Hp) as (Pn & Pk & Pt & Pd).
    unfold payload_part000, payload_index.
    rewrite !esc_plain by assumption.
    rewrite reply_line_agree; [reflexivity|].
    intros json. apply Hshape.
  - rewrite (Part000_row_body_skip admin row finalLog w Hp).
    rewrite (AppIndex_row_body_skip admin row finalLog w Hp). reflexivity.
Qed.

Lemma for_of_agree `{Engine} (admin : Admin) rows :
  Forall plain_row rows →
  (∀ w0 q json, admin w0 q = Normal json → lacks_operation json = false) →
  ∀ finalLog w,
    for_of (Part000.row_body admin) rows finalLog w
    = for_of (AppIndex.row_body admin) rows finalLog w.
Proof.
  intros Hrows Hshape. induction Hrows as [|row rest Hrow _ IH];
    intros finalLog w; [reflexivity|].
  simpl. unfold bind. rewrite (row_body_agree admin row finalLog w Hrow Hshape).
  destruct (AppIndex.row_body admin row finalLog w) as [[finalLog'|err] w'];
    [apply IH | reflexivity].
Qed.

(** X11.  The two route files behave alike where their differences do not
    show: when the header check passes, no Name, Key, Type or Description
    holds a double quote or a backslash, and every JSON the admin API
    returns carries [data.metafieldDefinitionCreate], both actions return
    the same log and send the same requests; only the status field of
    [unnamed/part_000] is extra. *)
Theorem variants_agree `{Engine} parse (admin : Admin) buffer rows w :
  parse buffer = Normal rows →
  missingHeaders rows = [] →
  Forall plain_row rows →
  (∀ w0 q json, admin w0 q = Normal json → lacks_operation json = false) →
  ∃ finalLog w',
    Part000.action parse admin (Some buffer) w
    = (Normal {| status := Some (str "success"); log := finalLog |}, w')
    ∧ AppIndex.action parse admin (Some buffer) w
      = (Normal {| status := None; log := finalLog |}, w').
Proof.
  intros Hparse Hmissing Hrows Hshape.
  exists (lines (AppIndex.row_line admin) (AppIndex.row_world admin) rows w),
    (world_after (AppIndex.row_world admin) rows w).
  unfold Part000.action, AppIndex.action, bind, lift. rewrite Hparse.
  rewrite (missingHeaders_nil_inv rows Hmissing), Hmissing. simpl.
  rewrite (for_of_agree admin rows Hrows Hshape).
  rewrite (for_of_lines _ _ _ (AppIndex_row_body_appends admin)).
  split; reflexivity.
Qed.

(** ** The form of the page *)

Import Page.

Lemma ascii_lower_cases (x : N) :
  (ascii_lower x = x ∧ ¬ (65 <= x ∧ x <= 90))
  ∨ (ascii_lower x = x + 32 ∧ 65 <= x ∧ x <= 90).
Proof.
  unfold ascii_lower.
  destruct (N.leb_spec 65 x), (N.leb_spec x 90); simpl; [right|left..];
    split; try reflexivity; lia.
Qed.

Lemma endsWith_app (stem t : jsstring) : endsWith (stem ++ t) t = true.
Proof.
  unfold endsWith. rewrite length_app.
  replace (length stem + length t - length t)%nat with (length stem) by lia.
  rewrite drop_app_length, bool_decide_eq_true_2 by reflexivity.
  rewrite andb_true_r. apply Nat.leb_le. lia.
Qed.

Lemma endsWith_inv (s t : jsstring) :
  endsWith s t = true → ∃ stem, s = stem ++ t.
Proof.
  unfold endsWith. intros Hs. apply andb_true_iff in Hs as [_ Hs].
  apply bool_decide_eq_true_1 in Hs.
  exists (take (length s - length t) s).
  pose proof (take_drop (length s - length t) s) as Htd.
  rewrite Hs in Htd. symmetry. exact Htd.
Qed.

Lemma lowered_csv_iff (name : jsstring) :
  endsWith (ascii_lower <$> name) (str ".csv") = true ↔ csv_name name.
Proof.
  split.
  - intros Hends. apply endsWith_inv in Hends as [lowered Hlow].
    assert (Hlen : length name = (length lowered + 4)%nat).
    { apply (f_equal length) in Hlow.
      rewrite length_fmap, length_app in Hlow. exact Hlow. }
    rewrite <- (take_drop (length lowered) name) in Hlow.
    rewrite fmap_app in Hlow.
    apply app_inj_1 in Hlow as [_ Htail];
      [|rewrite !length_fmap, length_take; lia].
    exists (take (length lowered) name).
    destruct (drop (length lowered) name) as [|x1 [|x2 [|x3 [|x4 [|x5 r]]]]] eqn:Hd;
      try discriminate Htail.
    injection Htail as H1 H2 H3 H4.
    exists x2, x3, x4. rewrite <- (take_drop (length lowered) name) at 1.
    rewrite Hd.
    destruct (ascii_lower_cases x1) as [[E1 _]|[E1 R1]];
      destruct (ascii_lower_cases x2) as [[E2 _]|[E2 R2]];
      destruct (ascii_lower_cases x3) as [[E3 _]|[E3 R3]];
      destruct (ascii_lower_cases x4) as [[E4 _]|[E4 R4]];
      rewrite E1 in H1; rewrite E2 in H2; rewrite E3 in H3; rewrite E4 in H4;
      change (N_of_ascii "."%char) with 46 in H1;
      change (N_of_ascii "c"%char) with 99 in H2;
      change (N_of_ascii "s"%char) with 115 in H3;
      change (N_of_ascii "v"%char) with 118 in H4;
      try lia;
      (assert (x1 = 46) as -> by lia);
      (split; [reflexivity|]); repeat split; lia.
  - intros (stem & a & b & c & -> & Ha & Hb & Hc).
    rewrite fmap_app.
    replace (ascii_lower <$> [46; a; b; c]) with (str ".csv");
      [apply endsWith_app|].
    destruct Ha as [-> | ->], Hb as [-> | ->], Hc as [-> | ->]; reflexivity.
Qed.

Lemma csv_name_not_nil : ¬ csv_name [].
Proof.
  intros (stem & a & b & c & Heq & _). apply (f_equal length) in Heq.
  rewrite length_app in Heq. simpl in Heq. lia.
Qed.

(** X12.  The client-side guard of the form, for file names of ASCII
    characters and a [toLowerCase] that lowers the letters A to Z on them:
    the submit goes through (and the error is cleared) exactly for a name
    that ends with [.csv] in any letter case; with no file picked it is
    prevented with the file's "select a file" message, and with any other
    name it is prevented with "Only .csv files are allowed.".  This holds
    for the forms of both route files. *)
Theorem submit_guard (toLowerCase : jsstring → jsstring) (name shown : jsstring) :
  (∀ s, ascii s → toLowerCase s = ascii_lower <$> s) →
  ascii name →
  let picked := {| Part000Page.fileName := name; Part000Page.error := shown |} in
  let picked' :=
    {| AppIndexPage.fileName := name; AppIndexPage.clientError := shown |} in
  (csv_name name →
     Part000Page.onSubmit toLowerCase picked
     = (false, {| Part000Page.fileName := name; Part000Page.error := [] |})
     ∧ AppIndexPage.onSubmit toLowerCase picked'
       = (false, {| AppIndexPage.fileName := name;
                    AppIndexPage.clientError := [] |}))
  ∧ (name = [] →
       Part000Page.onSubmit toLowerCase picked
       = (true, {| Part000Page.fileName := [];
                   Part000Page.error := str "Please upload a CSV file." |})
       ∧ AppIndexPage.onSubmit toLowerCase picked'
         = (true, {| AppIndexPage.fileName := [];
                     AppIndexPage.clientError :=
                       str "Please select a CSV file before uploading." |}))
  ∧ (name ≠ [] → ¬ csv_name name →
       Part000Page.onSubmit toLowerCase picked
       = (true, {| Part000Page.fileName := name;
                   Part000Page.error := str "Only .csv files are allowed." |})
       ∧ AppIndexPage.onSubmit toLowerCase picked'
         = (true, {| AppIndexPage.fileName := name;
                     AppIndexPage.clientError :=
                       str "Only .csv files are allowed." |})).
Proof.
  intros Hlower Hascii picked picked'. subst picked picked'.
  unfold Part000Page.onSubmit, AppIndexPage.onSubmit. simpl.
  rewrite (Hlower name Hascii).
  split; [|split].
  - intros Hcsv.
    rewrite bool_decide_eq_false_2
      by (intros ->; exact (csv_name_not_nil Hcsv)).
    apply lowered_csv_iff in Hcsv. rewrite Hcsv. split; reflexivity.
  - intros ->. split; reflexivity.
  - intros Hname Hcsv. rewrite bool_decide_eq_false_2 by exact Hname.
    destruct (endsWith (ascii_lower <$> name) (str ".csv")) eqn:Hends.
    + apply lowered_csv_iff in Hends. contradiction.
    + split; reflexivity.
Qed.

(** X13.  In the form of [unnamed/part_000] the effect that runs once the
    fetcher is idle with a result puts the form back in its initial state,
    whatever it held, and from there a submit is prevented with "Please
    upload a CSV file." until a file is picked again; while the fetcher is
    loading or submitting, or has no result yet, the effect changes
    nothing. *)
Theorem form_resets_after_result (toLowerCase : jsstring → jsstring)
    (st : Part000Page.State) (data : ActionData) :
  Part000Page.afterFetch idle (Some data) st = Part000Page.initial
  ∧ Part000Page.onSubmit toLowerCase
      (Part000Page.afterFetch idle (Some data) st)
    = (true, {| Part000Page.fileName := [];
                Part000Page.error := str "Please upload a CSV file." |})
  ∧ (∀ name files,
       Part000Page.fileName
         (Part000Page.onChange (Some (name :: files))
            (Part000Page.afterFetch idle (Some data) st)) = name)
  ∧ (∀ state result,
       state ≠ idle ∨ result = None →
       Part000Page.afterFetch state result st = st).
Proof.
  split; [reflexivity|]. split; [reflexivity|]. split; [reflexivity|].
  intros state result [Hstate | ->].
  - destruct state, result; try reflexivity; congruence.
  - destruct state; reflexivity.
Qed.

(** ** The description and the fixed fields of a request *)

(** X16.  A Description that is missing, empty or white space only is sent
    as the empty string: two rows with the same Name, Key and Type, each
    with such a Description, send the same request, whose description
    literal is empty.  This holds in both route files. *)
Theorem blank_description_same_payload `{Engine} (admin : Admin)
    row1 row2 name key type w :
  trim <$> row1 !! str "Name" = Some name → name ≠ [] →
  trim <$> row1 !! str "Key" = Some key → key ≠ [] →
  trim <$> row1 !! str "Type" = Some type → type ≠ [] →
  (∀ c, c ∈ requiredHeaders → row2 !! c = row1 !! c) →
  blank row1 (str "Description") →
  blank row2 (str "Description") →
  (Part000.row_world admin row1 w
   = w ++ [mutation_template (Part000.esc name) (Part000.esc key)
             (Part000.esc type) []]
   ∧ Part000.row_world admin row2 w = Part000.row_world admin row1 w)
  ∧ (AppIndex.row_world admin row1 w
     = w ++ [mutation_template name key type []]
     ∧ AppIndex.row_world admin row2 w = AppIndex.row_world admin row1 w).
Proof.
  intros Hn Hn' Hk Hk' Ht Ht' Hsame Hblank1 Hblank2.
  destruct elem_of_requiredHeaders as (InN & InK & InT).
  assert (Hn2 : trim <$> row2 !! str "Name" = Some name)
    by (rewrite (Hsame _ InN); exact Hn).
  assert (Hk2 : trim <$> row2 !! str "Key" = Some key)
    by (rewrite (Hsame _ InK); exact Hk).
  assert (Ht2 : trim <$> row2 !! str "Type" = Some type)
    by (rewrite (Hsame _ InT); exact Ht).
  pose proof (or_else_blank _ _ Hblank1) as Hd1.
  pose proof (or_else_blank _ _ Hblank2) as Hd2.
  assert (HP1 : Part000.row_world admin row1 w
                = w ++ [mutation_template (Part000.esc name) (Part000.esc key)
                          (Part000.esc type) []]).
  { unfold Part000.row_world.
    rewrite (Part000_row_body_processed admin row1 name key type) by assumption.
    rewrite Hd1. reflexivity. }
  assert (HA1 : AppIndex.row_world admin row1 w
                = w ++ [mutation_template name key type []]).
  { unfold AppIndex.row_world.
    rewrite (AppIndex_row_body_processed admin row1 name key type) by assumption.
    rewrite Hd1. reflexivity. }
  split; (split; [assumption|]).
  - rewrite HP1. unfold Part000.row_world.
    rewrite (Part000_row_body_processed admin row2 name key type) by assumption.
    rewrite Hd2. reflexivity.
  - rewrite HA1. unfold AppIndex.row_world.
    rewrite (AppIndex_row_body_processed admin row2 name key type) by assumption.
    rewrite Hd2. reflexivity.
Qed.

Import Graph.

Lemma name_char_not_ignored (c : N) :
  name_char c = true →
  ignored c = false ∧ (c =? 125) = false ∧ (c =? dquote) = false.
Proof.
  unfold name_char, ignored, SP, LF, dquote.
  rewrite !orb_true_iff, !andb_true_iff, !orb_false_iff, !N.leb_le,
    !N.eqb_eq, !N.eqb_neq.
  lia.
Qed.

Lemma skip_ignored_ln (k : nat) (s : jsstring) :
  skip_ignored (ln k s) = skip_ignored s.
Proof. unfold ln. cbn [skip_ignored]. induction k; [reflexivity | exact IHk]. Qed.

Lemma skip_ignored_name (c : N) (s : jsstring) :
  name_char c = true → skip_ignored (c :: s) = c :: s.
Proof.
  intros Hc. destruct (name_char_not_ignored c Hc) as (Hi & _).
  cbn [skip_ignored]. rewrite Hi. reflexivity.
Qed.

Lemma read_name_app (w : jsstring) (c : N) (s : jsstring) :
  Forall (λ x, name_char x = true) w → name_char c = false →
  read_name (w ++ c :: s) = (w, c :: s).
Proof.
  intros Hw Hc. induction Hw as [|x w Hx _ IH]; simpl.
  - rewrite Hc. reflexivity.
  - rewrite Hx, IH. reflexivity.
Qed.

Lemma esc_not_block (v rest : jsstring) (q2 q3 : N) (s3 : jsstring) :
  (∀ r, rest ≠ dquote :: r) →
  Part000.esc v ++ dquote :: rest = q2 :: q3 :: s3 →
  (q2 =? dquote) && (q3 =? dquote) = false.
Proof.
  intros Hrest. destruct v as [|c v].
  - simpl. intros [= _ Hr].
    destruct (N.eqb_spec q3 dquote) as [Hq|_]; [|apply andb_false_r].
    subst q3. destruct (Hrest s3 Hr).
  - rewrite esc_cons. intros Heq.
    assert (Hq2 : (q2 =? dquote) = false); [|rewrite Hq2; reflexivity].
    destruct (special_cases c) as [(Hb & _)|[(Hb & Hq & _)|(Hb & Hq & _)]];
      rewrite Hb in Heq; try rewrite Hq in Heq; simpl in Heq;
      injection Heq as <- _; [reflexivity | reflexivity | exact Hq].
Qed.

Lemma read_value_esc (v rest : jsstring) :
  (∀ r, rest ≠ dquote :: r) →
  read_value (quoted (Part000.esc v) ++ rest) = Some (StringValue v, rest).
Proof.
  intros Hrest. unfold quoted. simpl. rewrite <- app_assoc. simpl.
  unfold read_value. change (dquote =? dquote) with true. cbv iota.
  pose proof (read_literal_esc v rest) as Hlit.
  pose proof (esc_not_block v rest) as Hblock.
  destruct (Part000.esc v ++ dquote :: rest) as [|q2 [|q3 s3]].
  - discriminate Hlit.
  - rewrite Hlit. reflexivity.
  - rewrite (Hblock q2 q3 s3 Hrest eq_refl), Hlit. reflexivity.
Qed.

Lemma read_fields_field (fuel : nat) (s : jsstring) (c : N)
    (r w after v : jsstring) (value : field_value) (rest : jsstring) :
  skip_ignored s = c :: r → (c =? 125) = false →
  read_name (c :: r) = (w, after) → w ≠ [] →
  skip_ignored after = 58 :: v →
  read_value (skip_ignored v) = Some (value, rest) →
  read_fields (S fuel) s
  = match read_fields fuel rest with
    | Some fields => Some ((w, value) :: fields)
    | None => None
    end.
Proof.
  intros Hs Hc Hname Hw Hafter Hvalue. cbn [read_fields].
  rewrite Hs, Hc, Hname. destruct w as [|x w]; [congruence|].
  rewrite Hafter. change (58 =? 58) with true. cbv iota.
  rewrite Hvalue. reflexivity.
Qed.

Lemma field_line_app (w v rest : jsstring) :
  field_line w v ++ rest = ln 12 (w ++ 58 :: 32 :: quoted v ++ rest).
Proof.
  unfold field_line, ln. rewrite <- app_comm_cons, <- !app_assoc. reflexivity.
Qed.

Lemma read_fields_string (fuel : nat) (w v rest : jsstring) :
  w ≠ [] → Forall (λ x, name_char x = true) w →
  (∀ r, rest ≠ dquote :: r) →
  read_fields (S fuel) (field_line w (Part000.esc v) ++ rest)
  = match read_fields fuel rest with
    | Some fields => Some ((w, StringValue v) :: fields)
    | None => None
    end.
Proof.
  intros Hw Hall Hrest. destruct w as [|c w']; [congruence|].
  pose proof (Forall_inv Hall) as Hc.
  destruct (name_char_not_ignored c Hc) as (_ & Hbrace & _).
  apply (read_fields_field fuel _ c
           (w' ++ 58 :: 32 :: quoted (Part000.esc v) ++ rest) (c :: w')
           (58 :: 32 :: quoted (Part000.esc v) ++ rest)
           (32 :: quoted (Part000.esc v) ++ rest)).
  - rewrite field_line_app, skip_ignored_ln.
    apply (skip_ignored_name c _ Hc).
  - exact Hbrace.
  - apply (read_name_app (c :: w') 58 _ Hall). reflexivity.
  - discriminate.
  - reflexivity.
  - replace (skip_ignored (32 :: quoted (Part000.esc v) ++ rest))
      with (quoted (Part000.esc v) ++ rest) by reflexivity.
    apply read_value_esc. exact Hrest.
Qed.

Lemma mutation_template_fields (name key type description : jsstring) :
  mutation_template name key type description
  = seg_open ++ field_line (str "name") name
    ++ field_line (str "namespace") (str "custom")
    ++ field_line (str "key") key ++ field_line (str "type") type
    ++ field_line (str "description") description ++ seg_end.
Proof.
  unfold mutation_template, seg_open, field_line, seg_end, ln.
  repeat (rewrite <- ?app_assoc, <- ?app_comm_cons). reflexivity.
Qed.

Lemma read_fields_seg_end (fuel : nat) :
  read_fields (S (S fuel)) seg_end
  = Some [(str "ownerType", Word (str "PRODUCT"))].
Proof. reflexivity. Qed.

(** X17.  In [unnamed/part_000] the definition object of every request
    reads, field by field, as the name, the namespace custom, the key, the
    type, the description and the ownerType PRODUCT, with the four values
    exactly those the request was built from: no value of the row can
    close its literal, add a field or replace the namespace or the owner
    type. *)
Theorem part000_definition_fields
    (name key type description : jsstring) :
  definition_fields (payload_part000 (name, key, type, description))
  = Some [(str "name", StringValue name);
          (str "namespace", StringValue (str "custom"));
          (str "key", StringValue key);
          (str "type", StringValue type);
          (str "description", StringValue description);
          (str "ownerType", Word (str "PRODUCT"))].
Proof.
  unfold definition_fields, payload_part000.
  rewrite mutation_template_fields, drop_app_length.
  assert (Hfuel : ∃ fuel,
            length (seg_open
                    ++ field_line (str "name") (Part000.esc name)
                    ++ field_line (str "namespace") (str "custom")
                    ++ field_line (str "key") (Part000.esc key)
                    ++ field_line (str "type") (Part000.esc type)
                    ++ field_line (str "description") (Part000.esc description)
                    ++ seg_end)
            = S (S (S (S (S (S (S fuel)))))))
    by (rewrite length_app; eexists; reflexivity).
  destruct Hfuel as [fuel ->].
  assert (Hnext : ∀ w v rest r, field_line w v ++ rest ≠ dquote :: r)
    by (intros w v rest r Hr; discriminate Hr).
  assert (Hend : ∀ r, seg_end ≠ dquote :: r)
    by (intros r Hr; discriminate Hr).
  change (field_line (str "namespace") (str "custom"))
    with (field_line (str "namespace") (Part000.esc (str "custom"))).
  rewrite read_fields_string;
    [|discriminate | repeat constructor | apply Hnext].
  rewrite read_fields_string;
    [|discriminate | repeat constructor | apply Hnext].
  rewrite read_fields_string;
    [|discriminate | repeat constructor | apply Hnext].
  rewrite read_fields_string;
    [|discriminate | repeat constructor | apply Hnext].
  rewrite read_fields_string;
    [|discriminate | repeat constructor | apply Hend].
  rewrite read_fields_seg_end. reflexivity.
Qed.

(** ** The further properties at sample inputs *)

Section MoreSamples.
Import Sample.
#[local] Existing Instance node_v8.

Ltac sample_plain_row :=
  let c := fresh "c" in
  let v := fresh "v" in
  let Hc := fresh "Hc" in
  let Hv := fresh "Hv" in
  intros c v Hc Hv;
  repeat (apply elem_of_cons in Hc as [->|Hc];
          [vm_compute in Hv;
           first [discriminate Hv | injection Hv as <-; repeat constructor]|]);
  inversion Hc.

Lemma requests_are_the_processed_rows_witness :
  parses [color_row; blank_key_row] [] = Normal [color_row; blank_key_row]
  ∧ missingHeaders [color_row; blank_key_row] = []
  ∧ (Part000.action (parses [color_row; blank_key_row])
       (replies key_exists_response) (Some []) []).2
    = [mutation_template (str "Color") (str "color")
         (str "single_line_text_field") []].
Proof.
  split; [reflexivity|]. split; [vm_compute; reflexivity|].
  rewrite (proj1 (requests_are_the_processed_rows
                    (parses [color_row; blank_key_row])
                    (replies key_exists_response) []
                    [color_row; blank_key_row] [] eq_refl
                    ltac:(vm_compute; reflexivity))).
  vm_compute. reflexivity.
Defined.

Lemma created_line_iff_witness :
  processed color_row
  = Some (str "Color", str "color", str "single_line_text_field", [])
  ∧ Part000.row_line (replies created_response) color_row []
    = created_line (str "Color") (str "color")
  ∧ AppIndex.row_line (replies key_exists_response) color_row []
    ≠ created_line (str "Color") (str "color").
Proof.
  assert (Hrow : processed color_row
                 = Some (str "Color", str "color",
                         str "single_line_text_field", []))
    by (vm_compute; reflexivity).
  split; [exact Hrow|]. split.
  - apply (proj1 (created_line_iff (replies created_response) color_row
                    _ _ _ _ [] Hrow)).
    exists created_response. split; [reflexivity | vm_compute; reflexivity].
  - intros Hline.
    apply (proj2 (created_line_iff (replies key_exists_response) color_row
                    _ _ _ _ [] Hrow)) in Hline.
    destruct Hline as (json & Hreply & Htruthy).
    injection Hreply as <-. vm_compute in Htruthy. discriminate Htruthy.
Defined.

Lemma error_status_sends_nothing_witness :
  Part000.action (parses [no_key_row; color_row]) (replies created_response)
    (Some []) []
  = (Normal {| status := Some (str "error"); log := invalid_log_part000 |}, [])
  ∧ ([] : World) = []
  ∧ (invalid_log_part000 = [no_file_line]
     ∨ invalid_log_part000 = [empty_line]
     ∨ invalid_log_part000 = invalid_log_part000).
Proof.
  assert (Hrun : Part000.action (parses [no_key_row; color_row])
                   (replies created_response) (Some []) []
                 = (Normal {| status := Some (str "error");
                              log := invalid_log_part000 |}, []))
    by (vm_compute; reflexivity).
  split; [exact Hrun|].
  exact (error_status_sends_nothing _ _ _ _ _ _ Hrun eq_refl).
Defined.

Lemma log_never_empty_witness :
  AppIndex.action (parses [blank_key_row]) (replies created_response)
    (Some []) []
  = (Normal {| status := None; log := [skip_line] |}, [])
  ∧ [skip_line] ≠ [].
Proof.
  assert (Hrun : AppIndex.action (parses [blank_key_row])
                   (replies created_response) (Some []) []
                 = (Normal {| status := None; log := [skip_line] |}, []))
    by (vm_compute; reflexivity).
  split; [exact Hrun|].
  exact (log_never_empty _ _ _ _ _ _ (or_intror Hrun)).
Defined.

Lemma esc_injective_witness :
  Part000.esc (str "a" ++ [dquote]) = Part000.esc ([97; dquote])
  ∧ str "a" ++ [dquote] = [97; dquote].
Proof.
  split; [reflexivity|].
  exact (esc_injective (str "a" ++ [dquote]) [97; dquote] eq_refl).
Defined.

Lemma payload_part000_injective_witness :
  payload_part000 (str "Color", str "color", str "t", [])
  = payload_part000 ([67; 111; 108; 111; 114], str "color", str "t", [])
  ∧ (str "Color", str "color", str "t", ([] : jsstring))
    = ([67; 111; 108; 111; 114], str "color", str "t", []).
Proof.
  split; [reflexivity|].
  exact (payload_part000_injective
           (str "Color", str "color", str "t", [])
           ([67; 111; 108; 111; 114], str "color", str "t", []) eq_refl).
Defined.

Lemma variants_agree_witness :
  parses [color_row; blank_key_row] [] = Normal [color_row; blank_key_row]
  ∧ missingHeaders [color_row; blank_key_row] = []
  ∧ Forall plain_row [color_row; blank_key_row]
  ∧ ∃ finalLog w',
      Part000.action (parses [color_row; blank_key_row])
        (replies key_exists_response) (Some []) []
      = (Normal {| status := Some (str "success"); log := finalLog |}, w')
      ∧ AppIndex.action (parses [color_row; blank_key_row])
          (replies key_exists_response) (Some []) []
        = (Normal {| status := None; log := finalLog |}, w').
Proof.
  assert (Hmissing : missingHeaders [color_row; blank_key_row] = [])
    by (vm_compute; reflexivity).
  assert (Hplain : Forall plain_row [color_row; blank_key_row]).
  { repeat constructor; sample_plain_row. }
  split; [reflexivity|]. split; [exact Hmissing|]. split; [exact Hplain|].
  apply (variants_agree (parses [color_row; blank_key_row])
           (replies key_exists_response) [] [color_row; blank_key_row] []
           eq_refl Hmissing Hplain).
  intros w0 q json Hreply. injection Hreply as <-. vm_compute. reflexivity.
Defined.

Lemma extra_columns_ignored_witness :
  Forall2 same_columns [color_row]
    [<[str "Vendor" := str "Acme"]> color_row]
  ∧ Part000.action (parses [color_row]) (replies created_response) (Some []) []
    = Part000.action (parses [<[str "Vendor" := str "Acme"]> color_row])
        (replies created_response) (Some []) []
  ∧ AppIndex.action (parses [color_row]) (replies created_response) (Some []) []
    = AppIndex.action (parses [<[str "Vendor" := str "Acme"]> color_row])
        (replies created_response) (Some []) [].
Proof.
  assert (Hsame : Forall2 same_columns [color_row]
                    [<[str "Vendor" := str "Acme"]> color_row]).
  { repeat constructor. intros c Hc.
    rewrite lookup_insert_ne; [reflexivity|].
    intros <-.
    repeat (apply elem_of_cons in Hc as [Hc|Hc];
            [vm_compute in Hc; discriminate Hc|]).
    inversion Hc. }
  split; [exact Hsame|].
  exact (extra_columns_ignored (parses [color_row])
           (parses [<[str "Vendor" := str "Acme"]> color_row])
           (replies created_response) [] _ _ [] eq_refl eq_refl Hsame).
Defined.

Lemma submit_guard_witness :
  (∀ s, ascii s → (fmap ascii_lower : jsstring → jsstring) s = ascii_lower <$> s)
  ∧ ascii (str "Fields.CSV")
  ∧ csv_name (str "Fields.CSV")
  ∧ Part000Page.onSubmit (fmap ascii_lower)
      {| Part000Page.fileName := str "Fields.CSV";
         Part000Page.error := str "Only .csv files are allowed." |}
    = (false, {| Part000Page.fileName := str "Fields.CSV";
                 Part000Page.error := [] |}).
Proof.
  assert (Hlower : ∀ s, ascii s →
            (fmap ascii_lower : jsstring → jsstring) s = ascii_lower <$> s)
    by reflexivity.
  assert (Hascii : ascii (str "Fields.CSV"))
    by (repeat constructor).
  assert (Hcsv : csv_name (str "Fields.CSV")).
  { exists (str "Fields"), 67, 83, 86. repeat split; auto. }
  split; [exact Hlower|]. split; [exact Hascii|]. split; [exact Hcsv|].
  exact (proj1 (proj1 (submit_guard (fmap ascii_lower) (str "Fields.CSV")
                         (str "Only .csv files are allowed.") Hlower Hascii)
                  Hcsv)).
Defined.

Lemma blank_description_same_payload_witness :
  blank no_description_row (str "Description")
  ∧ blank spaces_description_row (str "Description")
  ∧ Part000.row_world (replies created_response) spaces_description_row []
    = Part000.row_world (replies created_response) no_description_row []
  ∧ AppIndex.row_world (replies created_response) spaces_description_row []
    = AppIndex.row_world (replies created_response) no_description_row [].
Proof.
  assert (Hn : trim <$> no_description_row !! str "Name" = Some (str "Color"))
    by (vm_compute; reflexivity).
  assert (Hk : trim <$> no_description_row !! str "Key" = Some (str "color"))
    by (vm_compute; reflexivity).
  assert (Ht : trim <$> no_description_row !! str "Type"
               = Some (str "single_line_text_field"))
    by (vm_compute; reflexivity).
  assert (Hblank1 : blank no_description_row (str "Description")).
  { unfold blank.
    replace (no_description_row !! str "Description") with (@None jsstring)
      by (vm_compute; reflexivity).
    exact I. }
  assert (Hblank2 : blank spaces_description_row (str "Description")).
  { unfold blank.
    replace (spaces_description_row !! str "Description")
      with (Some (str "   ")) by (vm_compute; reflexivity).
    repeat constructor. }
  assert (Hsame : ∀ c, c ∈ requiredHeaders →
                    spaces_description_row !! c = no_description_row !! c).
  { intros c Hc. unfold requiredHeaders in Hc.
    repeat (apply elem_of_cons in Hc as [->|Hc]; [vm_compute; reflexivity|]).
    inversion Hc. }
  split; [exact Hblank1|]. split; [exact Hblank2|].
  destruct (blank_description_same_payload (replies created_response)
              no_description_row spaces_description_row _ _ _ []
              Hn ltac:(discriminate) Hk ltac:(discriminate)
              Ht ltac:(discriminate) Hsame Hblank1 Hblank2)
    as ((_ & HP) & (_ & HA)).
  split; [exact HP | exact HA].
Defined.

Lemma form_resets_after_result_witness :
  Part000Page.afterFetch loading
    (Some {| status := Some (str "success"); log := [skip_line] |})
    {| Part000Page.fileName := str "a.csv"; Part000Page.error := [] |}
  = {| Part000Page.fileName := str "a.csv"; Part000Page.error := [] |}.
Proof.
  apply (proj2 (proj2 (proj2
           (form_resets_after_result (fmap ascii_lower)
              {| Part000Page.fileName := str "a.csv"; Part000Page.error := [] |}
              {| status := None; log := [] |})))).
  left. discriminate.
Defined.

End MoreSamples.
